(** * nmt-fastapi-a2a: the director agent and the task-event executors

    A shallow embedding of
    - [app/agents/director/agent.py]          ([DirectorAgent.stream]),
    - [app/agents/director/agent_executor.py] ([DirectorAgentExecutor]),
    - [app/agents/widgets/agent_executor.py]  ([MCPAgentExecutor]),
    with the properties of the chunk content extraction and of the
    translation of stream updates into protocol events.

    Python values are untyped: a chunk is the dictionary returned by
    [chunk.model_dump(mode="json", exclude_none=True)], so the embedding works
    on a small universe of JSON-like Python values with Python's truthiness,
    [dict.get], iteration and [str()].  A dictionary is an association list in
    insertion order, because [str(chunk_dict)] prints the entries in that
    order.  Exceptions are values of an error type; generators and the event
    queue are traces of the things they yield or enqueue. *)

From Stdlib Require Import ZArith String Ascii List Bool DecimalString.
Import ListNotations.

Set Warnings "-register-all".

#[local] Open Scope string_scope.

(** ** Exceptions and the two effect shapes of the code *)

(** A raised exception: the name of its class and [str(e)]. *)
Inductive exn : Type :=
| PyExn (cls : string) (msg : string).

Definition exn_str (e : exn) : string :=
  match e with PyExn _ msg => msg end.

(** The classes of Python and asyncio that derive from [BaseException] and
    not from [Exception]: an exception of one of them passes through
    [except Exception]. *)
Definition base_only_classes : list string :=
  ["BaseException"; "BaseExceptionGroup"; "GeneratorExit"; "KeyboardInterrupt";
   "SystemExit"; "CancelledError"].

(** [isinstance(e, Exception)] *)
Definition is_Exception (e : exn) : bool :=
  match e with
  | PyExn cls _ => negb (existsb (String.eqb cls) base_only_classes)
  end.

(** Pure code that may raise. *)
Definition result (A : Type) : Type := (exn + A)%type.

(** Code that may raise and that leaves a trace of observable actions
    ([yield]s of a generator, calls to collaborators, enqueued events). *)
Definition traced (X A : Type) : Type := (list X * result A)%type.

Class Monad (m : Type -> Type) : Type :=
  { ret : forall {A}, A -> m A;
    bind : forall {A B}, m A -> (A -> m B) -> m B }.

#[export] Instance Monad_result : Monad result :=
  { ret := fun A a => inr a;
    bind := fun A B m k => match m with inl e => inl e | inr a => k a end }.

#[export] Instance Monad_traced {X : Type} : Monad (traced X) :=
  { ret := fun A a => ([], inr a);
    bind := fun A B m k =>
      match m with
      | (t, inl e) => (t, inl e)
      | (t, inr a) => let '(t', r) := k a in ((t ++ t')%list, r)
      end }.

Notation "x <- c1 ;; c2" := (bind c1 (fun x => c2))
  (at level 61, c1 at next level, right associativity).
Notation "c1 ;; c2" := (bind c1 (fun _ => c2))
  (at level 61, right associativity).

Definition raise {A : Type} (e : exn) : result A := inl e.

(** One observable action. *)
Definition emit {X : Type} (x : X) : traced X unit := ([x], inr tt).

(** A pure fallible computation inside traced code. *)
Definition lift {X A : Type} (r : result A) : traced X A := ([], r).

(** [try: body except Exception as e: handler e]: what is no [Exception]
    is not caught. *)
Definition try_except {X A : Type} (body : traced X A)
    (handler : exn -> traced X A) : traced X A :=
  match body with
  | (t, inl e) =>
      if is_Exception e then let '(t', r) := handler e in ((t ++ t')%list, r)
      else (t, inl e)
  | (t, inr a) => (t, inr a)
  end.

(** ** Strings *)

(** [needle in hay] *)
Fixpoint contains (needle hay : string) : bool :=
  String.prefix needle hay
  || match hay with
     | EmptyString => false
     | String _ rest => contains needle rest
     end.

(** [sep.join(l)] *)
Fixpoint join (sep : string) (l : list string) : string :=
  match l with
  | [] => ""
  | [x] => x
  | x :: xs => x ++ sep ++ join sep xs
  end.

(** *** [repr] of a [str]

    A character is a code point below 256.  CPython picks the quote
    (single, unless the string holds a single quote and no double quote),
    escapes the quote and the backslash, writes tab, newline and carriage
    return as [\t], [\n], [\r], and every other non-printable code point as
    [\xNN]. *)

Definition squote : ascii := ascii_of_nat 39.
Definition dquote : ascii := ascii_of_nat 34.
Definition backslash : ascii := ascii_of_nat 92.

Definition has_char (c : ascii) (s : string) : bool :=
  existsb (Ascii.eqb c) (list_ascii_of_string s).

Definition repr_quote (s : string) : ascii :=
  if has_char squote s && negb (has_char dquote s) then dquote else squote.

Definition hex_digit (n : nat) : ascii :=
  nth n (list_ascii_of_string "0123456789abcdef") "0"%char.

Definition printable (n : nat) : bool :=
  if (n <? 32)%nat then false
  else if (n <? 127)%nat then true
  else if (n <? 161)%nat then false
  else negb (n =? 173)%nat.

Definition repr_char (q c : ascii) : string :=
  let n := nat_of_ascii c in
  if Ascii.eqb c q || Ascii.eqb c backslash then String backslash (String c "")
  else if (n =? 9)%nat then String backslash "t"
  else if (n =? 10)%nat then String backslash "n"
  else if (n =? 13)%nat then String backslash "r"
  else if printable n then String c ""
  else String backslash
         (String "x" (String (hex_digit (n / 16)) (String (hex_digit (n mod 16)) ""))).

Definition repr_str (s : string) : string :=
  let q := repr_quote s in
  String q (join "" (map (repr_char q) (list_ascii_of_string s)) ++ String q "").

(** ** Python values *)

Inductive value : Type :=
| VNone
| VBool (b : bool)
| VInt (z : Z)
| VStr (s : string)
| VList (l : list value)
| VDict (d : list (string * value)).

Definition dict : Type := list (string * value).

(** [bool(v)] *)
Definition truthy (v : value) : bool :=
  match v with
  | VNone => false
  | VBool b => b
  | VInt z => negb (z =? 0)%Z
  | VStr s => negb (s =? "")
  | VList l => match l with [] => false | _ => true end
  | VDict d => match d with [] => false | _ => true end
  end.

(** [type(v).__name__] *)
Definition type_name (v : value) : string :=
  match v with
  | VNone => "NoneType"
  | VBool _ => "bool"
  | VInt _ => "int"
  | VStr _ => "str"
  | VList _ => "list"
  | VDict _ => "dict"
  end.

(** Key lookup in a dictionary. *)
Fixpoint lookup (d : dict) (k : string) : option value :=
  match d with
  | [] => None
  | (k', v) :: rest => if k' =? k then Some v else lookup rest k
  end.

(** [d.get(k, default)] on a dictionary. *)
Definition dict_get_default (d : dict) (k : string) (default : value) : value :=
  match lookup d k with Some v => v | None => default end.

(** [d.get(k)] on a dictionary. *)
Definition dict_get (d : dict) (k : string) : value :=
  dict_get_default d k VNone.

Definition no_attribute (v : value) (attr : string) : exn :=
  PyExn "AttributeError"
        ("'" ++ type_name v ++ "' object has no attribute '" ++ attr ++ "'").

(** [v.get(k, default)] on any value: only a dictionary has [get]. *)
Definition py_get_default (v : value) (k : string) (default : value) : result value :=
  match v with
  | VDict d => ret (dict_get_default d k default)
  | _ => raise (no_attribute v "get")
  end.

(** [v.get(k)] *)
Definition py_get (v : value) (k : string) : result value :=
  py_get_default v k VNone.

(** [v[k]] with a string key. *)
Definition py_getitem (v : value) (k : string) : result value :=
  match v with
  | VDict d =>
      match lookup d k with
      | Some x => ret x
      | None => raise (PyExn "KeyError" (repr_str k))
      end
  | VList _ =>
      raise (PyExn "TypeError" "list indices must be integers or slices, not str")
  | VStr _ =>
      raise (PyExn "TypeError" "string indices must be integers, not 'str'")
  | _ =>
      raise (PyExn "TypeError" ("'" ++ type_name v ++ "' object is not subscriptable"))
  end.

(** The items a [for] loop over [v] visits: the elements of a list, the keys
    of a dictionary, the characters of a string. *)
Definition py_iter (v : value) : result (list value) :=
  match v with
  | VList l => ret l
  | VDict d => ret (map (fun kv => VStr (fst kv)) d)
  | VStr s => ret (map (fun c => VStr (String c "")) (list_ascii_of_string s))
  | _ => raise (PyExn "TypeError" ("'" ++ type_name v ++ "' object is not iterable"))
  end.

(** [v == "text"]-style comparison with a string literal. *)
Definition eq_str (v : value) (lit : string) : bool :=
  match v with
  | VStr s => s =? lit
  | _ => false
  end.

(** [repr(v)] *)
Fixpoint py_repr (v : value) : string :=
  match v with
  | VNone => "None"
  | VBool true => "True"
  | VBool false => "False"
  | VInt z => NilZero.string_of_int (Z.to_int z)
  | VStr s => repr_str s
  | VList l => "[" ++ join ", " (map py_repr l) ++ "]"
  | VDict d =>
      "{" ++ join ", " (map (fun kv => repr_str (fst kv) ++ ": " ++ py_repr (snd kv)) d)
          ++ "}"
  end.

(** [str(v)], also what an f-string field [{v}] prints. *)
Definition py_str (v : value) : string :=
  match v with
  | VStr s => s
  | _ => py_repr v
  end.

(** ** The director agent ([app/agents/director/agent.py]) *)

(** The dictionary a stream yields:
    [{"is_task_complete": .., "require_user_input": .., "content": ..}]. *)
Record update : Type :=
  { is_task_complete : bool;
    require_user_input : bool;
    content : string }.

Record AgentSelectionResult : Type :=
  { agent_id : string;
    reasoning : string }.

(** What the asynchronous iterator of the downstream transport does after its
    last chunk. *)
Inductive stream_end : Type :=
| EndOfStream
| StreamRaises (e : exn).

(** The outcome of [send_message_streaming]: it raises at once, or it returns
    an iterator whose chunks are given here already dumped to dictionaries
    ([chunk.model_dump(mode="json", exclude_none=True)]). *)
Inductive sent : Type :=
| SendRaises (e : exn)
| SendStreams (chunks : list dict) (fin : stream_end).

Definition http_headers : Type := list (string * string).

(** An [A2AClient], seen through [send_message_streaming(request,
    http_kwargs={"headers": headers})]; the request carries the query. *)
Definition A2AClient : Type := http_headers -> string -> sent.

(** What a consumer of the generator, or an observer of the collaborators,
    sees, in order. *)
Inductive action : Type :=
| Yield (u : update)
| CallSelect (question : string)
| CallSend (client : string) (headers : http_headers) (query : string).

(** An agent, as the executors use it: [agent.stream(query, sessionId)]. *)
Class Agent (A : Type) : Type :=
  agent_stream : A -> string -> string -> traced action unit.

Module DirectorAgent.

Record t : Type :=
  { (** the LLM call of [_select_agent]: [client.chat.completions.create] *)
    client : string -> result AgentSelectionResult;
    (** [a2a_clients["widgets"]], set by [__init__] *)
    a2a_clients_widgets : A2AClient;
    initialized : bool;
    (** [OAUTH_TOKEN_CTX.get()] as seen by the request *)
    oauth_token_ctx : option string }.

Definition _select_agent (self : t) (question : string)
  : traced action AgentSelectionResult :=
  emit (CallSelect question) ;;
  lift (client self question).

(** Lines 185-188: [for part in parts: if part.get("kind") == "text" and
    part.get("text"): content = part["text"]; break]. *)
Fixpoint scan_parts (content : value) (parts : list value) : result value :=
  match parts with
  | [] => ret content
  | part :: rest =>
      kind <- py_get part "kind" ;;
      found <- (if eq_str kind "text"
                then (text <- py_get part "text" ;; ret (truthy text))
                else ret false) ;;
      if found : bool then py_getitem part "text"
      else scan_parts content rest
  end.

(** Lines 180-190: the body of [async for chunk in stream_response], from
    the value of [content] before the chunk to its value after it. *)
Definition process_chunk (content : value) (chunk_dict : dict) : result value :=
  let result := dict_get chunk_dict "result" in
  last <- (if truthy result
           then (lc <- py_get result "lastChunk" ;; ret (truthy lc))
           else ret false) ;;
  if last : bool then
    artifact <- py_get result "artifact" ;;
    content <- (if truthy artifact
                then (parts <- py_get_default artifact "parts" (VList []) ;;
                      items <- py_iter parts ;;
                      scan_parts content items)
                else ret content) ;;
    ret (if negb (truthy content) then VStr (py_str (VDict chunk_dict))
         else content)
  else ret content.

(** Lines 178-190: the loop over the chunks. [content] keeps the value of
    the last chunk that was processed without an exception. *)
Fixpoint consume_chunks (content : value) (chunks : list dict) (fin : stream_end)
  : value * option exn :=
  match chunks with
  | [] => (content, match fin with EndOfStream => None | StreamRaises e => Some e end)
  | chunk_dict :: rest =>
      match process_chunk content chunk_dict with
      | inl e => (content, Some e)
      | inr content' => consume_chunks content' rest fin
      end
  end.

(** Lines 173-191: the body of the inner [try], up to the exception that
    left it, if any. *)
Definition consume (content : value) (s : sent) : value * option exn :=
  match s with
  | SendRaises e => (content, Some e)
  | SendStreams chunks fin => consume_chunks content chunks fin
  end.

Definition error_update (e : exn) : update :=
  {| is_task_complete := false;
     require_user_input := true;
     content := "Error processing request: " ++ exn_str e |}.

Definition processing_update : update :=
  {| is_task_complete := false;
     require_user_input := false;
     content := "Processing request..." |}.

(** [DirectorAgent.stream], lines 134-211. *)
Definition stream (self : t) (query sessionId : string) : traced action unit :=
  if negb (initialized self) then
    emit (Yield {| is_task_complete := false;
                   require_user_input := true;
                   content := "Agent initialization failed." |})
  else
    try_except
      (emit (Yield processing_update) ;;
       let headers : http_headers :=
         match oauth_token_ctx self with
         | Some token => if token =? "" then [] else [("Authorization", token)]
         | None => []
         end in
       agent_choice <- _select_agent self query ;;
       let a2a_client :=
         if agent_id agent_choice =? "WidgetsAgent"
         then Some (a2a_clients_widgets self) else None in
       a2a_client <- lift (match a2a_client with
                           | Some c => ret c
                           | None => raise (PyExn "AssertionError"
                               ("Unknown agent_id: " ++ agent_id agent_choice))
                           end) ;;
       emit (CallSend "widgets" headers query) ;;
       let '(content, failure) := consume (VStr "") (a2a_client headers query) in
       match failure with
       | Some e => if is_Exception e then emit (Yield (error_update e))
                   else lift (raise e)
       | None => ret tt
       end ;;
       emit (Yield {| is_task_complete := true;
                      require_user_input := false;
                      content := "Agent " ++ agent_id agent_choice
                                   ++ " response: " ++ py_str content ++ "." |}))
      (fun e => emit (Yield (error_update e))).

End DirectorAgent.

#[export] Instance Agent_DirectorAgent : Agent DirectorAgent.t := DirectorAgent.stream.

(** An agent that yields a fixed list of updates (the tests' [DummyAgent]). *)
Record DummyAgent : Type := { items : list update }.

#[export] Instance Agent_DummyAgent : Agent DummyAgent :=
  fun self _ _ => (map Yield (items self), inr tt).

(** The updates among the actions of a stream. *)
Fixpoint yields (tr : list action) : list update :=
  match tr with
  | [] => []
  | Yield u :: rest => u :: yields rest
  | _ :: rest => yields rest
  end.

(** ** The protocol events of the executors *)

Inductive TaskState : Type :=
| working
| input_required
| completed.

Record Task : Type :=
  { id : string;
    context_id : string }.

(** The request message; [new_task] reads nothing else of it here. *)
Record Message : Type :=
  { message_id : string }.

(** [new_agent_text_message(text, context_id, task_id)] *)
Record AgentMessage : Type :=
  { msg_text : string;
    msg_context_id : string;
    msg_task_id : string }.

Record TaskStatus : Type :=
  { state : TaskState;
    message : option AgentMessage }.

(** [new_text_artifact(name=.., description=.., text=..)] *)
Record Artifact : Type :=
  { name : string;
    description : string;
    text : string }.

Inductive Event : Type :=
| TaskEvent (task : Task)
| TaskStatusUpdateEvent (status : TaskStatus) (final : bool)
                        (context_id task_id : string)
| TaskArtifactUpdateEvent (append : bool) (context_id task_id : string)
                          (last_chunk : bool) (artifact : Artifact).

Record RequestContext : Type :=
  { user_input : string;
    current_task : option Task;
    request_message : option Message }.

(** [a2a.utils.new_task]: it makes the task of a message, or raises (it
    validates the message). A function that makes a task of every message is
    a factory that never raises. *)
Class TaskFactory (F : Type) : Type :=
  make_task : F -> Message -> result Task.

#[export] Instance TaskFactory_raising : TaskFactory (Message -> result Task) :=
  fun new_task => new_task.

#[export] Instance TaskFactory_total : TaskFactory (Message -> Task) :=
  fun new_task m => inr (new_task m).

(** [for x in xs: body x] in traced code. *)
Fixpoint for_each {X A : Type} (xs : list A) (body : A -> traced X unit)
  : traced X unit :=
  match xs with
  | [] => ret tt
  | x :: rest => body x ;; for_each rest body
  end.

(** ** The director executor ([app/agents/director/agent_executor.py]) *)

Module DirectorAgentExecutor.

(** Lines 78-134: the body of [async for item in self.agent.stream(..)]. *)
Definition handle_item (task : Task) (item : update) : traced Event unit :=
  let is_task_complete := is_task_complete item in
  let require_user_input := require_user_input item in
  let content := content item in
  if negb is_task_complete && negb require_user_input then
    emit (TaskStatusUpdateEvent
            {| state := working;
               message := Some {| msg_text := content;
                                  msg_context_id := context_id task;
                                  msg_task_id := id task |} |}
            false (context_id task) (id task))
  else if require_user_input then
    emit (TaskStatusUpdateEvent
            {| state := input_required;
               message := Some {| msg_text := content;
                                  msg_context_id := context_id task;
                                  msg_task_id := id task |} |}
            true (context_id task) (id task))
  else
    emit (TaskArtifactUpdateEvent false (context_id task) (id task) true
            {| name := "current_result";
               description := "Result of request to agent.";
               text := content |}) ;;
    emit (TaskStatusUpdateEvent
            {| state := completed; message := None |}
            true (context_id task) (id task)).

(** [execute], lines 40-134. [new_task] is [a2a.utils.new_task], which may
    raise. The events enqueued are the trace; an exception of the agent's
    generator leaves [execute] after the events of the updates yielded
    before it. *)
Definition execute {F : Type} `{TaskFactory F} {A : Type} `{Agent A}
    (new_task : F) (agent : A) (context : RequestContext) : traced Event unit :=
  let query := user_input context in
  task <- match current_task context with
          | Some task => ret task
          | None =>
              match request_message context with
              | Some m => task <- lift (make_task new_task m) ;;
                          emit (TaskEvent task) ;; ret task
              | None => lift (raise (PyExn "AssertionError" ""))
              end
          end ;;
  let '(tr, outcome) := agent_stream agent query (context_id task) in
  for_each (yields tr) (handle_item task) ;;
  lift outcome.

(** [cancel], lines 136-147. *)
Definition cancel (context : RequestContext) : traced Event unit :=
  lift (raise (PyExn "Exception" "cancel not supported")).

End DirectorAgentExecutor.

(** ** The widgets executor ([app/agents/widgets/agent_executor.py]) *)

Module MCPAgentExecutor.

(** Lines 75-128: the body of [async for item in self.agent.stream(..)]. *)
Definition handle_item (task : Task) (item : update) : traced Event unit :=
  let is_task_complete := is_task_complete item in
  let require_user_input := require_user_input item in
  let content := content item in
  if negb is_task_complete && negb require_user_input then
    emit (TaskStatusUpdateEvent
            {| state := working;
               message := Some {| msg_text := content;
                                  msg_context_id := context_id task;
                                  msg_task_id := id task |} |}
            false (context_id task) (id task))
  else if require_user_input then
    emit (TaskStatusUpdateEvent
            {| state := input_required;
               message := Some {| msg_text := content;
                                  msg_context_id := context_id task;
                                  msg_task_id := id task |} |}
            true (context_id task) (id task))
  else
    emit (TaskArtifactUpdateEvent false (context_id task) (id task) true
            {| name := "current_result";
               description := "Result of request to agent.";
               text := content |}) ;;
    emit (TaskStatusUpdateEvent
            {| state := completed; message := None |}
            true (context_id task) (id task)).

(** [execute], lines 40-128. *)
Definition execute {F : Type} `{TaskFactory F} {A : Type} `{Agent A}
    (new_task : F) (agent : A) (context : RequestContext) : traced Event unit :=
  let query := user_input context in
  task <- match current_task context with
          | Some task => ret task
          | None =>
              match request_message context with
              | Some m => task <- lift (make_task new_task m) ;;
                          emit (TaskEvent task) ;; ret task
              | None => lift (raise (PyExn "AssertionError" ""))
              end
          end ;;
  let '(tr, outcome) := agent_stream agent query (context_id task) in
  for_each (yields tr) (handle_item task) ;;
  lift outcome.

(** [cancel], lines 130-141. *)
Definition cancel (context : RequestContext) : traced Event unit :=
  lift (raise (PyExn "Exception" "cancel not supported")).

End MCPAgentExecutor.

(** ** Observations on events and traces *)

Definition is_final (e : Event) : bool :=
  match e with
  | TaskStatusUpdateEvent _ final _ _ => final
  | _ => false
  end.

Definition is_artifact_event (e : Event) : bool :=
  match e with
  | TaskArtifactUpdateEvent _ _ _ _ _ => true
  | _ => false
  end.

(** The states of the status-update events among [evs], in order. *)
Fixpoint status_states (evs : list Event) : list TaskState :=
  match evs with
  | [] => []
  | TaskStatusUpdateEvent st _ _ _ :: rest => state st :: status_states rest
  | _ :: rest => status_states rest
  end.

Definition is_call_send (a : action) : bool :=
  match a with CallSend _ _ _ => true | _ => false end.

Definition is_call_select (a : action) : bool :=
  match a with CallSelect _ => true | _ => false end.

(** The TaskState of the data model, in the words of the specification:
    not complete and not requiring input gives [working]; else requiring
    input gives [input_required]; else [completed]. *)
Definition spec_task_state (u : update) : TaskState :=
  match is_task_complete u, require_user_input u with
  | false, false => working
  | _, true => input_required
  | true, false => completed
  end.

(** ** The payload type of the specification

    A part is a mapping with a [kind] and an optional [text] string. *)

(** The text of a part with [kind == "text"] and a non-empty [text] string. *)
Definition text_of_part (p : value) : option string :=
  match p with
  | VDict d =>
      match dict_get d "kind", dict_get d "text" with
      | VStr k, VStr t => if (k =? "text") && negb (t =? "") then Some t else None
      | _, _ => None
      end
  | _ => None
  end.

Definition no_text (p : value) : bool :=
  match text_of_part p with Some _ => false | None => true end.

(** A mapping whose [text], when present, is a string. *)
Definition is_part (p : value) : bool :=
  match p with
  | VDict d =>
      match dict_get d "text" with
      | VNone | VStr _ => true
      | _ => false
      end
  | _ => false
  end.

(** [result] has no valid text part: no artifact, or an artifact whose parts
    (none, when the key is missing) are parts without a valid text. *)
Definition lacks_text_part (result : dict) : bool :=
  match dict_get result "artifact" with
  | VDict artifact =>
      match dict_get_default artifact "parts" (VList []) with
      | VList parts => forallb is_part parts && forallb no_text parts
      | _ => false
      end
  | other => negb (truthy other)
  end.

(** The transport fails, with an [Exception], before it yields a chunk. *)
Definition raises_first (s : sent) : option exn :=
  match s with
  | SendRaises e => if is_Exception e then Some e else None
  | SendStreams [] (StreamRaises e) => if is_Exception e then Some e else None
  | _ => None
  end.

(** The error text of a selection that cannot be routed: the [Exception] of
    the selection step, or the failed assertion on the agent id. *)
Definition selection_error (r : result AgentSelectionResult) : option string :=
  match r with
  | inl e => if is_Exception e then Some (exn_str e) else None
  | inr choice =>
      if agent_id choice =? "WidgetsAgent" then None
      else Some ("Unknown agent_id: " ++ agent_id choice)
  end.

(** [needle] occurs in [hay]. *)
Definition infix (needle hay : string) : Prop :=
  exists a b, hay = a ++ needle ++ b.

(** The headers of line 153-155. *)
Definition request_headers (self : DirectorAgent.t) : http_headers :=
  match DirectorAgent.oauth_token_ctx self with
  | Some token => if token =? "" then [] else [("Authorization", token)]
  | None => []
  end.

(** The update of line 199-203. *)
Definition final_update (choice : AgentSelectionResult) (content : value) : update :=
  {| is_task_complete := true;
     require_user_input := false;
     content := "Agent " ++ agent_id choice ++ " response: " ++ py_str content ++ "." |}.

(** The events of one update. *)
Definition events_of (task : Task) (u : update) : list Event :=
  fst (DirectorAgentExecutor.handle_item task u).

(** The events the director executor enqueues for a request that already has
    a task. *)
Definition enqueued {A : Type} `{Agent A} (new_task : Message -> Task) (agent : A)
    (query : string) (task : Task) (m : option Message) : list Event :=
  fst (DirectorAgentExecutor.execute new_task agent
         {| user_input := query; current_task := Some task; request_message := m |}).

(** The status-update events of the loop. *)
Definition status_event (s : TaskState) (final : bool) (task : Task)
    (content : string) : Event :=
  TaskStatusUpdateEvent
    {| state := s;
       message := Some {| msg_text := content;
                          msg_context_id := context_id task;
                          msg_task_id := id task |} |}
    final (context_id task) (id task).

(** ** Values of the tests *)

Definition text_part (s : string) : value :=
  VDict [("kind", VStr "text"); ("text", VStr s)].

Definition image_part : value :=
  VDict [("kind", VStr "image"); ("url", VStr "x")].

(** A result with a truthy [lastChunk] and an artifact of the given parts. *)
Definition result_with (parts : list value) : dict :=
  [("lastChunk", VBool true); ("artifact", VDict [("parts", VList parts)])].

(** The dump of the tests' [DummyChunk(lastChunk=True, text=s)]: the
    artifact is at the top level. *)
Definition dummy_chunk (s : string) : dict :=
  [("result", VDict [("lastChunk", VBool true)]);
   ("artifact", VDict [("parts", VList [text_part s])])].

Definition widgets_choice : AgentSelectionResult :=
  {| agent_id := "WidgetsAgent"; reasoning := "widget" |}.

(** A director agent whose selection returns [choice] and whose transport
    behaves as [s]. *)
Definition director (choice : result AgentSelectionResult) (s : sent)
  : DirectorAgent.t :=
  {| DirectorAgent.client := fun _ => choice;
     DirectorAgent.a2a_clients_widgets := fun _ _ => s;
     DirectorAgent.initialized := true;
     DirectorAgent.oauth_token_ctx := None |}.

Definition task1 : Task := {| id := "task-1"; context_id := "ctx-1" |}.

Definition new_task1 : Message -> Task := fun _ => task1.

(** ** A reading of the chunks for the payload type

    What a chunk of the payload type is to the loop of the director: not a
    last chunk, a last chunk with a first text, or a last chunk without one.
    [None] is a chunk outside the payload type. *)

Inductive chunk_class : Type :=
| NotLast
| HasText (t : string)
| NoText.

(** The first valid text among parts of the payload type: [Some None] when
    there is none, [None] when a value that is no part comes first. *)
Fixpoint find_text (parts : list value) : option (option string) :=
  match parts with
  | [] => Some None
  | p :: rest =>
      match text_of_part p with
      | Some t => Some (Some t)
      | None => if is_part p then find_text rest else None
      end
  end.

Definition classify_chunk (chunk_dict : dict) : option chunk_class :=
  match dict_get chunk_dict "result" with
  | VDict result =>
      if truthy (dict_get result "lastChunk") then
        match dict_get result "artifact" with
        | VDict artifact =>
            match dict_get_default artifact "parts" (VList []) with
            | VList parts =>
                match find_text parts with
                | Some (Some t) => Some (HasText t)
                | Some None => Some NoText
                | None => None
                end
            | _ => None
            end
        | other => if truthy other then None else Some NoText
        end
      else Some NotLast
  | other => if truthy other then None else Some NotLast
  end.

(** The content after a chunk of each class. *)
Definition class_step (k : chunk_class) (content : value) (chunk_dict : dict) : value :=
  match k with
  | NotLast => content
  | HasText t => VStr t
  | NoText => if truthy content then content else VStr (py_str (VDict chunk_dict))
  end.

Definition is_not_last (chunk_dict : dict) : bool :=
  match classify_chunk chunk_dict with Some NotLast => true | _ => false end.

Definition is_classified (chunk_dict : dict) : bool :=
  match classify_chunk chunk_dict with Some _ => true | None => false end.

Definition has_no_text (chunk_dict : dict) : bool :=
  match classify_chunk chunk_dict with
  | Some NotLast | Some NoText => true
  | _ => false
  end.

(** What remains to be raised when the chunks are exhausted. *)
Definition end_exn (fin : stream_end) : option exn :=
  match fin with EndOfStream => None | StreamRaises e => Some e end.

(** The number of updates of a state. *)
Definition count_state (s : TaskState) (us : list update) : nat :=
  length (filter (fun u => match spec_task_state u, s with
                           | working, working => true
                           | input_required, input_required => true
                           | completed, completed => true
                           | _, _ => false
                           end) us).

(** An agent whose generator yields [yielded] and then raises [failure]. *)
Record FailingAgent : Type :=
  { yielded : list update;
    failure : exn }.

#[export] Instance Agent_FailingAgent : Agent FailingAgent :=
  fun self _ _ => (map Yield (yielded self), inl (failure self)).

(** The update of an agent that is not initialized (agent.py lines 139-143). *)
Definition init_failed_update : update :=
  {| is_task_complete := false;
     require_user_input := true;
     content := "Agent initialization failed." |}.

(** The artifact event of a completion. *)
Definition artifact_event (task : Task) (content : string) : Event :=
  TaskArtifactUpdateEvent false (context_id task) (id task) true
    {| name := "current_result";
       description := "Result of request to agent.";
       text := content |}.

(** The status event of a completion. *)
Definition completed_event (task : Task) : Event :=
  TaskStatusUpdateEvent {| state := completed; message := None |}
    true (context_id task) (id task).

(** ** Exception groups and [except*] *)

(** What a [try] body raised: one exception, or an [ExceptionGroup] (never
    empty) of such. *)
Inductive raised : Type :=
| Leaf (e : exn)
| Group (msg : string) (first : raised) (others : list raised).

(** [str] of what was raised; a group prints its message and its size. *)
Definition raised_str (r : raised) : string :=
  match r with
  | Leaf e => exn_str e
  | Group msg _ others =>
      msg ++ " (" ++ NilZero.string_of_int (Z.to_int (Z.of_nat (S (length others))))
          ++ " sub-exception" ++ (match others with [] => "" | _ => "s" end) ++ ")"
  end.

Definition regroup (msg : string) (members : list raised) : option raised :=
  match members with
  | [] => None
  | x :: xs => Some (Group msg x xs)
  end.

Definition somes {A : Type} (l : list (option A)) : list A :=
  flat_map (fun o => match o with Some a => [a] | None => [] end) l.

(** [group.split(T)]: the exceptions of class [T] and the others, each with
    the nesting of the group; a part without a member is [None]. *)
Fixpoint split (is_T : exn -> bool) (r : raised) : option raised * option raised :=
  match r with
  | Leaf e => if is_T e then (Some r, None) else (None, Some r)
  | Group msg x xs =>
      let parts := split is_T x :: map (split is_T) xs in
      (regroup msg (somes (map fst parts)), regroup msg (somes (map snd parts)))
  end.

(** One clause [except* T as exc] on what is not handled yet: the group bound
    to [exc], if the clause runs, and what is left for the next clauses. An
    exception that is no group is wrapped in a group with an empty message. *)
Definition except_star (is_T : exn -> bool) (unhandled : option raised)
  : option raised * option raised :=
  match unhandled with
  | None => (None, None)
  | Some (Leaf e) =>
      if is_T e then (Some (Group "" (Leaf e) []), None) else (None, Some (Leaf e))
  | Some g => split is_T g
  end.

(** [exc.exceptions[0]] *)
Definition first_exception (exc : raised) : raised :=
  match exc with
  | Group _ x _ => x
  | Leaf e => Leaf e
  end.

(** [isinstance(e, httpx.ConnectError)] *)
Definition is_ConnectError (e : exn) : bool :=
  match e with PyExn cls _ => cls =? "ConnectError" end.

(** [isinstance(r, Exception)] for what was raised: an exception group is
    an [ExceptionGroup], and so an [Exception], when all it holds are
    [Exception]s. *)
Fixpoint is_Exception_instance (r : raised) : bool :=
  match r with
  | Leaf e => is_Exception e
  | Group _ x xs => is_Exception_instance x && forallb is_Exception_instance xs
  end.

(** No exception in it is an [Exception]. *)
Fixpoint no_Exception_in (r : raised) : bool :=
  match r with
  | Leaf e => negb (is_Exception e)
  | Group _ x xs => no_Exception_in x && forallb no_Exception_in xs
  end.

(** ** The widgets agent ([app/agents/widgets/agent.py]) *)

Module WidgetsMCPAgent.

(** An MCP tool: [name], [description], [inputSchema]. *)
Record Tool : Type :=
  { Tool_name : string;
    Tool_description : option string;
    inputSchema : value }.

Record ToolCall : Type :=
  { tool_name : string;
    args : dict }.

(** An item of [CallToolResult.content]. *)
Inductive ContentBlock : Type :=
| TextContent (text : string)
| OtherContent.

Record CallToolResult : Type :=
  { result_content : list ContentBlock;
    isError : bool }.

Record t : Type :=
  { initialized : bool;
    (** [OAUTH_TOKEN_CTX.get()] as seen by the request *)
    oauth_token_ctx : option string;
    (** entering [streamablehttp_client(mcp_url, headers)] and
        [ClientSession], and [session.initialize()]: what leaves the
        [async with] statement when the session cannot be set up *)
    open_session : http_headers -> option raised;
    (** [session.list_tools()] *)
    list_tools : raised + list Tool;
    (** [_select_tool]: the prompt rendered from the tools and the question,
        and the LLM call *)
    select_tool : list Tool -> string -> raised + ToolCall;
    (** [session.call_tool(name=.., arguments=..)] *)
    call_tool : string -> dict -> raised + CallToolResult;
    (** leaving the two [async with] blocks, with what their body raised:
        what leaves the statement *)
    close_session : option raised -> option raised }.

Inductive mcp_action : Type :=
| McpYield (u : update)
| OpenSession (headers : http_headers)
| ListTools
| SelectTool (tools : list Tool) (question : string)
| CallTool (name : string) (arguments : dict).

(** [_discover_mcp_tools], lines 77-94: no tool when the listing fails with
    an [Exception]; what is no [Exception] is raised on. *)
Definition _discover_mcp_tools (self : t) : raised + list Tool :=
  match list_tools self with
  | inr available_tools => inr available_tools
  | inl r => if is_Exception_instance r then inr [] else inl r
  end.

(** Lines 200-212, inside the session: the calls made, what the body
    raised, and [call_result]. *)
Definition session_body (self : t) (query : string)
  : list mcp_action * option raised * option CallToolResult :=
  match _discover_mcp_tools self with
  | inl r => ([ListTools], Some r, None)
  | inr available_tools =>
      match select_tool self available_tools query with
      | inl r => ([ListTools; SelectTool available_tools query], Some r, None)
      | inr tool_call =>
          let calls := [ListTools; SelectTool available_tools query;
                        CallTool (tool_name tool_call) (args tool_call)] in
          match call_tool self (tool_name tool_call) (args tool_call) with
          | inl r => if is_Exception_instance r then (calls, None, None)
                     else (calls, Some r, None)
          | inr call_result => (calls, None, Some call_result)
          end
      end
  end.

Definition complete_update (content : string) : update :=
  {| is_task_complete := true;
     require_user_input := false;
     content := content |}.

(** Lines 214-244, after the session: the assertions and the answer. *)
Definition answer (call_result : option CallToolResult)
  : list mcp_action * option raised :=
  match call_result with
  | None => ([], Some (Leaf (PyExn "AssertionError" "")))
  | Some call_result =>
      match result_content call_result with
      | [] => ([], Some (Leaf (PyExn "IndexError" "list index out of range")))
      | OtherContent :: _ => ([], Some (Leaf (PyExn "AssertionError" "")))
      | TextContent text :: _ =>
          if isError call_result
          then ([McpYield (complete_update ("Tool call failed: " ++ text))], None)
          else ([McpYield (complete_update text)], None)
      end
  end.

(** Lines 183-244: the body of the [try]. *)
Definition try_body (self : t) (query : string) : list mcp_action * option raised :=
  let headers : http_headers :=
    match oauth_token_ctx self with
    | Some token => if token =? "" then [] else [("Authorization", token)]
    | None => []
    end in
  match open_session self headers with
  | Some r => ([OpenSession headers], Some r)
  | None =>
      let '(calls, raised_inside, call_result) := session_body self query in
      match close_session self raised_inside with
      | Some r => ((OpenSession headers :: calls)%list, Some r)
      | None =>
          let '(ys, r) := answer call_result in
          ((OpenSession headers :: calls ++ ys)%list, r)
      end
  end.

(** [WidgetsMCPAgent.stream], lines 160-260: the actions, and what is raised
    again after the [except*] clauses. *)
Definition stream (self : t) (query sessionId : string)
  : list mcp_action * option raised :=
  if negb (initialized self) then
    ([McpYield {| is_task_complete := false;
                  require_user_input := true;
                  content := "Agent initialization failed."
                             ++ " Please check the dependencies and logs." |}], None)
  else
    let '(actions, r) := try_body self query in
    let '(connect_errors, rest) := except_star is_ConnectError r in
    let '(other_errors, leftover) := except_star is_Exception rest in
    ((McpYield {| is_task_complete := false;
                  require_user_input := false;
                  content := "Processing request..." |}
      :: actions
      ++ match connect_errors with
         | Some exc => [McpYield (complete_update
                          ("Error connecting to MCP server: "
                           ++ raised_str (first_exception exc)))]
         | None => []
         end
      ++ match other_errors with
         | Some exc => [McpYield (complete_update
                          ("Error processing request: "
                           ++ raised_str (first_exception exc)))]
         | None => []
         end)%list,
     leftover).

(** The updates among the actions. *)
Fixpoint updates (actions : list mcp_action) : list update :=
  match actions with
  | [] => []
  | McpYield u :: rest => u :: updates rest
  | _ :: rest => updates rest
  end.

End WidgetsMCPAgent.

Definition exn_of_raised (r : raised) : exn :=
  match r with
  | Leaf e => e
  | Group _ _ _ =>
      PyExn (if is_Exception_instance r then "ExceptionGroup" else "BaseExceptionGroup")
            (raised_str r)
  end.

#[export] Instance Agent_WidgetsMCPAgent : Agent WidgetsMCPAgent.t :=
  fun self query sessionId =>
    let '(actions, leftover) := WidgetsMCPAgent.stream self query sessionId in
    (map Yield (WidgetsMCPAgent.updates actions),
     match leftover with
     | None => inr tt
     | Some r => inl (exn_of_raised r)
     end).

(** ** The web front end ([app/web.py], lines 99-124)

    The relay is modelled for a websocket that takes every message:
    [send_text] does not raise. *)

Module Web.

(** Lines 110-113. *)
Fixpoint scan_parts (content : value) (parts : list value) : result value :=
  match parts with
  | [] => ret content
  | part :: rest =>
      kind <- py_get part "kind" ;;
      found <- (if eq_str kind "text"
                then (text <- py_get part "text" ;; ret (truthy text))
                else ret false) ;;
      if found : bool then py_getitem part "text"
      else scan_parts content rest
  end.

(** Lines 103-117: the content to send for a chunk, if any. [content] starts
    empty at every chunk. *)
Definition chunk_message (chunk_dict : dict) : result (option value) :=
  let result := dict_get chunk_dict "result" in
  let content := VStr "" in
  last <- (if truthy result
           then (lc <- py_get result "lastChunk" ;; ret (truthy lc))
           else ret false) ;;
  if last : bool then
    artifact <- py_get result "artifact" ;;
    content <- (if truthy artifact
                then (parts <- py_get_default artifact "parts" (VList []) ;;
                      items <- py_iter parts ;;
                      scan_parts content items)
                else ret content) ;;
    ret (Some (if negb (truthy content) then VStr (py_str (VDict chunk_dict))
               else content))
  else ret None.

(** Line 123. *)
Definition error_html (e : exn) : string :=
  "<div class=" ++ String dquote ("msg agent" ++ String dquote
    (">Error contacting agent: " ++ exn_str e ++ "</div>")).

(** Lines 102-121, one chunk: [render] is the template "messages.html"
    applied to the one new message [("agent", content)]; the trace is what
    is sent on the websocket. *)
Definition send_chunk (render : value -> result string) (chunk_dict : dict)
  : traced string unit :=
  msg <- lift (chunk_message chunk_dict) ;;
  match msg with
  | Some content => html <- lift (render content) ;; emit html
  | None => ret tt
  end.

(** Lines 99-124: the stream of one user message, relayed to the websocket. *)
Definition relay (render : value -> result string) (s : sent) : traced string unit :=
  try_except
    (match s with
     | SendRaises e => lift (raise e)
     | SendStreams chunks fin =>
         for_each chunks (send_chunk render) ;;
         lift (match fin with
               | EndOfStream => ret tt
               | StreamRaises e => raise e
               end)
     end)
    (fun e => emit (error_html e)).

End Web.

(** What the web front end sends for a chunk of the payload type. *)
Definition class_message (render : value -> string) (chunk_dict : dict) : list string :=
  match classify_chunk chunk_dict with
  | Some (HasText t) => [render (VStr t)]
  | Some NoText => [render (VStr (py_str (VDict chunk_dict)))]
  | _ => []
  end.

(** The headers of the widgets agent (agent.py lines 183-185). *)
Definition mcp_headers (self : WidgetsMCPAgent.t) : http_headers :=
  match WidgetsMCPAgent.oauth_token_ctx self with
  | Some token => if token =? "" then [] else [("Authorization", token)]
  | None => []
  end.

Definition is_complete (u : update) : bool :=
  is_task_complete u && negb (require_user_input u).

(** A widgets agent with a session that opens and closes without an
    exception of its own. *)
Definition widgets_agent (tools : raised + list WidgetsMCPAgent.Tool)
    (choice : raised + WidgetsMCPAgent.ToolCall)
    (outcome : raised + WidgetsMCPAgent.CallToolResult) : WidgetsMCPAgent.t :=
  {| WidgetsMCPAgent.initialized := true;
     WidgetsMCPAgent.oauth_token_ctx := None;
     WidgetsMCPAgent.open_session := fun _ => None;
     WidgetsMCPAgent.list_tools := tools;
     WidgetsMCPAgent.select_tool := fun _ _ => choice;
     WidgetsMCPAgent.call_tool := fun _ _ => outcome;
     WidgetsMCPAgent.close_session := fun r => r |}.

(** A widgets agent whose session cannot be opened. *)
Definition unreachable_agent (r : raised) : WidgetsMCPAgent.t :=
  {| WidgetsMCPAgent.initialized := true;
     WidgetsMCPAgent.oauth_token_ctx := None;
     WidgetsMCPAgent.open_session := fun _ => Some r;
     WidgetsMCPAgent.list_tools := inr [];
     WidgetsMCPAgent.select_tool :=
       fun _ _ => inr {| WidgetsMCPAgent.tool_name := "UNKNOWN";
                         WidgetsMCPAgent.args := [] |};
     WidgetsMCPAgent.call_tool := fun _ _ => inl (Leaf (PyExn "Exception" "unused"));
     WidgetsMCPAgent.close_session := fun r => r |}.

Definition get_widget : WidgetsMCPAgent.ToolCall :=
  {| WidgetsMCPAgent.tool_name := "get_widget";
     WidgetsMCPAgent.args := [("widget_id", VInt 1)] |}.

(** * Properties *)

(** ** Substrings *)

Lemma append_assoc (a b c : string) : (a ++ b) ++ c = a ++ b ++ c.
Proof. induction a as [|x a IH]; simpl; [reflexivity | now rewrite IH]. Qed.

Lemma append_nil_r (a : string) : a ++ "" = a.
Proof. induction a as [|x a IH]; simpl; [reflexivity | now rewrite IH]. Qed.

Lemma prefix_append (s t : string) : String.prefix s (s ++ t) = true.
Proof.
  induction s as [|c s IH]; simpl.
  - now destruct t.
  - destruct (ascii_dec c c) as [_|ne]; [exact IH | now elim ne].
Qed.

Lemma contains_prefix (needle hay : string) :
  String.prefix needle hay = true -> contains needle hay = true.
Proof. intros H. destruct hay; cbn [contains]; now rewrite H. Qed.

Lemma infix_contains (needle hay : string) :
  infix needle hay -> contains needle hay = true.
Proof.
  intros (a & b & ->). induction a as [|c a IH].
  - apply contains_prefix. exact (prefix_append needle b).
  - change (contains needle (String c (a ++ needle ++ b)) = true).
    cbn [contains]. rewrite IH. apply orb_true_r.
Qed.

Lemma infix_refl (s : string) : infix s s.
Proof. exists "", "". simpl. now rewrite append_nil_r. Qed.

Lemma infix_trans (a b c : string) : infix a b -> infix b c -> infix a c.
Proof.
  intros (p & q & ->) (p' & q' & ->).
  exists (p' ++ p), (q ++ q'). now rewrite !append_assoc.
Qed.

Lemma infix_app_l (n a b : string) : infix n a -> infix n (a ++ b).
Proof.
  intros (p & q & ->). exists p, (q ++ b). now rewrite !append_assoc.
Qed.

Lemma infix_app_r (n a b : string) : infix n b -> infix n (a ++ b).
Proof.
  intros (p & q & ->). exists (a ++ p), q. now rewrite !append_assoc.
Qed.

Lemma infix_cons (n : string) (c : ascii) (s : string) :
  infix n s -> infix n (String c s).
Proof. apply (infix_app_r n (String c "") s). Qed.

Lemma infix_join (sep x : string) (l : list string) :
  In x l -> infix x (join sep l).
Proof.
  induction l as [|y l IH]; [intros [] |].
  intros [-> | Hin].
  - destruct l; [apply infix_refl | apply infix_app_l, infix_refl].
  - destruct l as [|z l]; [destruct Hin |].
    change (infix x (y ++ sep ++ join sep (z :: l))).
    now apply infix_app_r, infix_app_r, IH.
Qed.

(** ** Dictionaries and their [repr] *)

Lemma lookup_In (d : dict) (k : string) (v : value) :
  lookup d k = Some v -> In (k, v) d.
Proof.
  induction d as [|[k' v'] d IH]; simpl; [discriminate |].
  destruct (k' =? k) eqn:E.
  - apply String.eqb_eq in E. intros [= ->]. left. now subst.
  - intros H. right. now apply IH.
Qed.

Lemma dict_get_lookup (d : dict) (k : string) (v : value) :
  dict_get d k = v -> v <> VNone -> lookup d k = Some v.
Proof.
  unfold dict_get, dict_get_default. destruct (lookup d k); intros <- H.
  - reflexivity.
  - now elim H.
Qed.

Lemma truthy_not_none (v : value) : truthy v = true -> v <> VNone.
Proof. now destruct v. Qed.

Lemma repr_entry (d : dict) (k : string) (v : value) :
  In (k, v) d ->
  infix (repr_str k ++ ": " ++ py_repr v) (py_repr (VDict d)).
Proof.
  intros Hin. simpl. apply infix_cons, infix_app_l, infix_join.
  apply (in_map (fun kv => repr_str (fst kv) ++ ": " ++ py_repr (snd kv)) d (k, v) Hin).
Qed.

Lemma repr_key (d : dict) (k : string) (v : value) :
  lookup d k = Some v -> infix (repr_str k) (py_repr (VDict d)).
Proof.
  intros H. eapply infix_trans; [| apply repr_entry, lookup_In, H].
  apply infix_app_l, infix_refl.
Qed.

Lemma repr_value (d : dict) (k : string) (v : value) :
  lookup d k = Some v -> infix (py_repr v) (py_repr (VDict d)).
Proof.
  intros H. eapply infix_trans; [| apply repr_entry, lookup_In, H].
  apply infix_app_r, infix_app_r, infix_refl.
Qed.

(** The serialization of a chunk whose [result] has a truthy [lastChunk]
    names that key. *)
Lemma repr_chunk_lastChunk (chunk_dict result : dict) :
  dict_get chunk_dict "result" = VDict result ->
  truthy (dict_get result "lastChunk") = true ->
  infix "lastChunk" (py_str (VDict chunk_dict)).
Proof.
  intros Hres Hlast.
  apply dict_get_lookup in Hres; [| discriminate].
  pose proof (dict_get_lookup result "lastChunk" _ eq_refl (truthy_not_none _ Hlast)) as Hk.
  apply (infix_trans _ (repr_str "lastChunk")).
  - exists "'", "'". reflexivity.
  - eapply infix_trans; [apply (repr_key _ _ _ Hk) | apply (repr_value _ _ _ Hres)].
Qed.

Lemma repr_dict_nonempty (d : dict) : py_str (VDict d) <> "".
Proof. discriminate. Qed.

(** ** The loop over the parts *)

Module ExtractFacts.
Import DirectorAgent.

Lemma scan_parts_hit (content : value) (p : value) (rest : list value) (t : string) :
  text_of_part p = Some t ->
  scan_parts content (p :: rest) = inr (VStr t).
Proof.
  destruct p as [| | | |l|d]; try discriminate.
  unfold text_of_part. cbn [scan_parts py_get py_get_default bind ret Monad_result].
  unfold dict_get at 1 2. unfold dict_get.
  destruct (dict_get_default d "kind" VNone) as [| | |k| |]; try discriminate.
  unfold dict_get_default at 1 2.
  destruct (lookup d "text") as [[| | |s| |]|] eqn:E; try discriminate.
  cbn [eq_str]. destruct (k =? "text"); [| discriminate].
  cbn [truthy andb]. destruct (negb (s =? "")); [| discriminate].
  intros [= ->]. cbn [py_getitem]. now rewrite E.
Qed.

Lemma scan_parts_skip (content : value) (p : value) (rest : list value) :
  is_part p = true -> no_text p = true ->
  scan_parts content (p :: rest) = scan_parts content rest.
Proof.
  destruct p as [| | | |l|d]; try discriminate.
  unfold is_part, no_text, text_of_part.
  cbn [scan_parts py_get py_get_default bind ret Monad_result].
  unfold dict_get.
  destruct (dict_get_default d "kind" VNone) as [| | |k| |]; cbn [eq_str]; try reflexivity.
  destruct (k =? "text"); [| reflexivity].
  destruct (dict_get_default d "text" VNone) as [| | |s| |];
    try discriminate; try reflexivity.
  cbn [truthy andb]. destruct (negb (s =? "")); [discriminate | reflexivity].
Qed.

Lemma scan_parts_first (content : value) (pre post : list value) (p : value)
    (t : string) :
  forallb is_part pre = true -> forallb no_text pre = true ->
  text_of_part p = Some t ->
  scan_parts content (pre ++ p :: post) = inr (VStr t).
Proof.
  intros Hpart Hno Hp. induction pre as [|q pre IH].
  - now apply scan_parts_hit.
  - cbn [forallb] in Hpart, Hno.
    apply andb_true_iff in Hpart as [Hq Hpart], Hno as [Hq' Hno].
    change (scan_parts content (q :: pre ++ p :: post) = inr (VStr t)).
    rewrite scan_parts_skip by assumption. now apply IH.
Qed.

Lemma scan_parts_none (content : value) (parts : list value) :
  forallb is_part parts = true -> forallb no_text parts = true ->
  scan_parts content parts = inr content.
Proof.
  induction parts as [|q parts IH]; [reflexivity |].
  cbn [forallb]. intros [Hq Hpart]%andb_true_iff [Hq' Hno]%andb_true_iff.
  rewrite scan_parts_skip by assumption. now apply IH.
Qed.

(** The guard of line 181 on a chunk whose [result.lastChunk] is truthy. *)
Lemma result_truthy (result : dict) :
  truthy (dict_get result "lastChunk") = true -> truthy (VDict result) = true.
Proof. destruct result; [discriminate | reflexivity]. Qed.

(** A chunk whose result holds a first valid text part. *)
Lemma process_chunk_text (content : value) (chunk_dict result artifact : dict)
    (pre post : list value) (p : value) (t : string) :
  dict_get chunk_dict "result" = VDict result ->
  truthy (dict_get result "lastChunk") = true ->
  dict_get result "artifact" = VDict artifact ->
  dict_get artifact "parts" = VList (pre ++ p :: post) ->
  forallb is_part pre = true -> forallb no_text pre = true ->
  text_of_part p = Some t ->
  process_chunk content chunk_dict = inr (VStr t).
Proof.
  intros Hres Hlast Hart Hparts Hpart Hno Hp.
  unfold process_chunk. rewrite Hres, (result_truthy _ Hlast).
  cbn [py_get py_get_default bind ret Monad_result].
  fold (dict_get result "lastChunk"). rewrite Hlast.
  fold (dict_get result "artifact"). rewrite Hart.
  assert (truthy (VDict artifact) = true) as ->.
  { destruct artifact; [discriminate Hparts | reflexivity]. }
  assert (dict_get_default artifact "parts" (VList []) = VList (pre ++ p :: post)) as Hdef.
  { revert Hparts. unfold dict_get, dict_get_default.
    destruct (lookup artifact "parts"); [auto | discriminate]. }
  cbn [py_get_default ret Monad_result]. rewrite Hdef.
  cbn [py_iter ret Monad_result].
  rewrite (scan_parts_first content pre post p t Hpart Hno Hp).
  destruct t as [|c t]; [| reflexivity].
  exfalso. revert Hp. destruct p as [| | | |l|d]; try discriminate. simpl.
  destruct (dict_get d "kind") as [| | |k| |]; try discriminate.
  destruct (dict_get d "text") as [| | |s| |]; try discriminate.
  destruct (k =? "text"); [| discriminate].
  destruct s; [discriminate | intros [=]].
Qed.

(** A chunk whose result lacks a valid text part: the fallback guarded by
    [if not content]. *)
Lemma process_chunk_fallback (content : value) (chunk_dict result : dict) :
  dict_get chunk_dict "result" = VDict result ->
  truthy (dict_get result "lastChunk") = true ->
  lacks_text_part result = true ->
  process_chunk content chunk_dict
  = inr (if truthy content then content else VStr (py_str (VDict chunk_dict))).
Proof.
  intros Hres Hlast Hlack.
  unfold process_chunk. rewrite Hres, (result_truthy _ Hlast).
  cbn [py_get py_get_default bind ret Monad_result].
  fold (dict_get result "lastChunk"). rewrite Hlast.
  fold (dict_get result "artifact"). unfold lacks_text_part in Hlack.
  assert (forall c : value,
             @inr exn value (if negb (truthy c) then VStr (py_str (VDict chunk_dict)) else c)
             = inr (if truthy c then c else VStr (py_str (VDict chunk_dict)))) as Hfin.
  { intros c. now destruct (truthy c). }
  destruct (dict_get result "artifact") as [|b|z|s|l|artifact].
  - apply Hfin.
  - cbn [truthy negb] in Hlack |- *. destruct b; [discriminate | apply Hfin].
  - cbn [truthy] in Hlack |- *. apply negb_true_iff in Hlack. rewrite Hlack. apply Hfin.
  - cbn [truthy] in Hlack |- *. apply negb_true_iff in Hlack. rewrite Hlack. apply Hfin.
  - destruct l; [apply Hfin | discriminate].
  - destruct artifact as [|kv artifact]; [apply Hfin |].
    cbn [truthy py_get_default ret Monad_result].
    destruct (dict_get_default (kv :: artifact) "parts" (VList [])) as [| | | |parts|];
      try discriminate.
    apply andb_true_iff in Hlack as [Hpart Hno].
    cbn [py_iter ret Monad_result].
    rewrite (scan_parts_none content parts Hpart Hno). apply Hfin.
Qed.

End ExtractFacts.

(** ** The stream of the director agent, path by path *)

Module StreamFacts.
Import DirectorAgent.

(** Selection raised, or chose an agent that is not routed. *)
Lemma stream_selection_error (self : t) (query sessionId err : string) :
  initialized self = true ->
  selection_error (client self query) = Some err ->
  stream self query sessionId
  = ([Yield processing_update; CallSelect query;
      Yield {| is_task_complete := false;
               require_user_input := true;
               content := "Error processing request: " ++ err |}],
     inr tt).
Proof.
  intros Hinit Hsel. unfold stream, _select_agent. rewrite Hinit.
  unfold selection_error in Hsel.
  destruct (client self query) as [e | choice]; cbn -[is_Exception].
  - destruct (is_Exception e) eqn:He; [| discriminate].
    injection Hsel as <-. reflexivity.
  - destruct (agent_id choice =? "WidgetsAgent"); [discriminate |].
    injection Hsel as <-. reflexivity.
Qed.

(** Selection was left by what is no [Exception]. *)
Lemma stream_selection_interrupted (self : t) (query sessionId : string) (e : exn) :
  initialized self = true ->
  client self query = inl e ->
  is_Exception e = false ->
  stream self query sessionId
  = ([Yield processing_update; CallSelect query], inl e).
Proof.
  intros Hinit Hc He. unfold stream, _select_agent. rewrite Hinit, Hc.
  cbn -[is_Exception]. now rewrite He.
Qed.

(** Selection chose the widgets agent: what the inner [try] leaves decides
    the rest. *)
Lemma stream_routed (self : t) (query sessionId : string)
    (choice : AgentSelectionResult) :
  initialized self = true ->
  client self query = inr choice ->
  agent_id choice = "WidgetsAgent" ->
  stream self query sessionId
  = match consume (VStr "")
            (a2a_clients_widgets self (request_headers self) query) with
    | (content, Some e) =>
        if is_Exception e
        then ([Yield processing_update; CallSelect query;
               CallSend "widgets" (request_headers self) query;
               Yield (error_update e); Yield (final_update choice content)], inr tt)
        else ([Yield processing_update; CallSelect query;
               CallSend "widgets" (request_headers self) query], inl e)
    | (content, None) =>
        ([Yield processing_update; CallSelect query;
          CallSend "widgets" (request_headers self) query;
          Yield (final_update choice content)], inr tt)
    end.
Proof.
  intros Hinit Hsel Hid.
  assert ((agent_id choice =? "WidgetsAgent") = true) as Heq by now rewrite Hid.
  unfold stream, _select_agent, request_headers. rewrite Hinit.
  cbn. rewrite Hsel. cbn. rewrite Heq. cbn.
  destruct (consume _ _) as [content [e|]]; [| reflexivity].
  destruct (is_Exception e) eqn:He; cbn; rewrite ?He; reflexivity.
Qed.

Lemma consume_raises_first (content : value) (s : sent) (e : exn) :
  raises_first s = Some e -> consume content s = (content, Some e).
Proof.
  destruct s as [e' | [|c cs] [|e']]; try discriminate; cbn;
    destruct (is_Exception e'); try discriminate; now intros [= ->].
Qed.

Lemma raises_first_Exception (s : sent) (e : exn) :
  raises_first s = Some e -> is_Exception e = true.
Proof.
  destruct s as [e' | [|c cs] [|e']]; try discriminate; cbn;
    destruct (is_Exception e') eqn:He; try discriminate; now intros [= <-].
Qed.

End StreamFacts.

(** ** The loop of the executors *)

Module ExecutorFacts.

Lemma handle_item_returns (task : Task) (u : update) :
  DirectorAgentExecutor.handle_item task u = (events_of task u, inr tt).
Proof.
  unfold events_of, DirectorAgentExecutor.handle_item.
  destruct u as [[] []]; reflexivity.
Qed.

Lemma widgets_handle_item (task : Task) (u : update) :
  MCPAgentExecutor.handle_item task u = DirectorAgentExecutor.handle_item task u.
Proof. reflexivity. Qed.

Lemma for_each_handle_item (task : Task) (us : list update) :
  for_each us (DirectorAgentExecutor.handle_item task)
  = (flat_map (events_of task) us, inr tt).
Proof.
  induction us as [|u us IH]; [reflexivity |].
  cbn [for_each flat_map]. rewrite handle_item_returns, IH. reflexivity.
Qed.

Lemma yields_map_Yield (us : list update) : yields (map Yield us) = us.
Proof. induction us as [|u us IH]; [reflexivity | simpl; now rewrite IH]. Qed.

(** [execute] on a request that already has a task. *)
Lemma execute_with_task {F : Type} `{TaskFactory F} {A : Type} `{Agent A}
    (new_task : F) (agent : A) (query : string) (task : Task) (m : option Message) :
  DirectorAgentExecutor.execute new_task agent
    {| user_input := query; current_task := Some task; request_message := m |}
  = (flat_map (events_of task) (yields (fst (agent_stream agent query (context_id task)))),
     snd (agent_stream agent query (context_id task))).
Proof.
  unfold DirectorAgentExecutor.execute. cbn.
  destruct (agent_stream agent query (context_id task)) as [tr outcome].
  rewrite for_each_handle_item. cbn. rewrite app_nil_r.
  destruct outcome as [e | []]; reflexivity.
Qed.

End ExecutorFacts.

(** * The claims *)

(** ** Chunk content extraction *)

(** C1. A chunk whose [result.lastChunk] is truthy and whose
    [result.artifact.parts] holds a part with [kind == "text"] and a
    non-empty text string: whatever [content] was before, after the chunk it
    is the text of the first such part. The parts after it are not looked at
    (they are arbitrary values here). *)
Theorem extract_first_text_part (content : value)
    (chunk_dict result artifact : dict) (pre post : list value) (p : value)
    (t : string) :
  dict_get chunk_dict "result" = VDict result ->
  truthy (dict_get result "lastChunk") = true ->
  dict_get result "artifact" = VDict artifact ->
  dict_get artifact "parts" = VList (pre ++ p :: post) ->
  forallb is_part pre = true ->
  forallb no_text pre = true ->
  text_of_part p = Some t ->
  DirectorAgent.process_chunk content chunk_dict = inr (VStr t).
Proof. apply ExtractFacts.process_chunk_text. Qed.

(** An image part, then two text parts: the first text part wins. *)
Lemma extract_first_text_part_witness :
  DirectorAgent.process_chunk (VStr "before")
    [("result", VDict (result_with [image_part; text_part "second"; text_part "third"]))]
  = inr (VStr "second").
Proof.
  apply (extract_first_text_part (VStr "before")
           [("result",
             VDict (result_with [image_part; text_part "second"; text_part "third"]))]
           (result_with [image_part; text_part "second"; text_part "third"])
           [("parts", VList [image_part; text_part "second"; text_part "third"])]
           [image_part] [text_part "third"] (text_part "second") "second");
    reflexivity.
Defined.

(** C4, as the claim states it, fails: the chunk of the tests' [DummyChunk]
    has no [result.artifact] and a top-level artifact with the text part
    "top"; the content is the serialization of the chunk, not "top". *)
Lemma top_level_artifact_unused :
  dict_get (dummy_chunk "top") "result" = VDict [("lastChunk", VBool true)]
  /\ dict_get (dummy_chunk "top") "artifact" = VDict [("parts", VList [text_part "top"])]
  /\ text_of_part (text_part "top") = Some "top"
  /\ DirectorAgent.process_chunk (VStr "") (dummy_chunk "top")
     = inr (VStr "{'result': {'lastChunk': True}, 'artifact': {'parts': [{'kind': 'text', 'text': 'top'}]}}")
  /\ DirectorAgent.process_chunk (VStr "") (dummy_chunk "top") <> inr (VStr "top").
Proof. repeat split; try reflexivity. discriminate. Qed.

(** C4, amended. For a chunk whose [result.lastChunk] is truthy only
    [result.artifact] is consulted, whatever the top-level [artifact] of the
    chunk is: without a [result.artifact] the content is the one extracted
    before, or the serialization of the chunk when there was none; with a
    [result.artifact] that holds a valid text part the content is the text of
    its first such part. *)
Theorem artifact_only_under_result (content top : value)
    (chunk_dict result : dict) :
  dict_get chunk_dict "result" = VDict result ->
  truthy (dict_get result "lastChunk") = true ->
  dict_get chunk_dict "artifact" = top ->
  (dict_get result "artifact" = VNone ->
   DirectorAgent.process_chunk content chunk_dict
   = inr (if truthy content then content else VStr (py_str (VDict chunk_dict))))
  /\ (forall (artifact : dict) (pre post : list value) (p : value) (t : string),
        dict_get result "artifact" = VDict artifact ->
        dict_get artifact "parts" = VList (pre ++ p :: post) ->
        forallb is_part pre = true ->
        forallb no_text pre = true ->
        text_of_part p = Some t ->
        DirectorAgent.process_chunk content chunk_dict = inr (VStr t)).
Proof.
  intros Hres Hlast _. split.
  - intros Hnone. apply (ExtractFacts.process_chunk_fallback _ _ result Hres Hlast).
    unfold lacks_text_part. now rewrite Hnone.
  - intros artifact pre post p t. now apply ExtractFacts.process_chunk_text.
Qed.

(** Both artifacts present: the nested one is used; only the top-level one
    present: the chunk is serialized. *)
Lemma artifact_only_under_result_witness :
  DirectorAgent.process_chunk (VStr "")
    [("result", VDict (result_with [text_part "nested"]));
     ("artifact", VDict [("parts", VList [text_part "top"])])]
  = inr (VStr "nested")
  /\ DirectorAgent.process_chunk (VStr "") (dummy_chunk "top")
     = inr (VStr (py_str (VDict (dummy_chunk "top")))).
Proof.
  split.
  - apply (proj2 (artifact_only_under_result (VStr "")
                    (VDict [("parts", VList [text_part "top"])])
                    [("result", VDict (result_with [text_part "nested"]));
                     ("artifact", VDict [("parts", VList [text_part "top"])])]
                    (result_with [text_part "nested"])
                    eq_refl eq_refl eq_refl)
                 [("parts", VList [text_part "nested"])]
                 [] [] (text_part "nested") "nested"); reflexivity.
  - apply (proj1 (artifact_only_under_result (VStr "")
                    (VDict [("parts", VList [text_part "top"])])
                    (dummy_chunk "top") [("lastChunk", VBool true)]
                    eq_refl eq_refl eq_refl)); reflexivity.
Defined.

(** C7, as the claim states it, fails: [content] is kept from one chunk to
    the next, and the fallback is guarded by [if not content]. After a chunk
    with the text "earlier", a chunk with a truthy [lastChunk] and no artifact
    leaves "earlier", which is not the serialization of that chunk and does
    not contain "lastChunk". *)
Lemma fallback_keeps_earlier_content :
  let first_chunk := [("result", VDict (result_with [text_part "earlier"]))] in
  let chunk_dict := [("result", VDict [("lastChunk", VBool true)])] in
  truthy (dict_get [("lastChunk", VBool true)] "lastChunk") = true
  /\ lacks_text_part [("lastChunk", VBool true)] = true
  /\ DirectorAgent.process_chunk (VStr "") first_chunk = inr (VStr "earlier")
  /\ DirectorAgent.process_chunk (VStr "earlier") chunk_dict = inr (VStr "earlier")
  /\ DirectorAgent.consume (VStr "") (SendStreams [first_chunk; chunk_dict] EndOfStream)
     = (VStr "earlier", None)
  /\ VStr "earlier" <> VStr (py_str (VDict chunk_dict))
  /\ contains "lastChunk" "earlier" = false.
Proof. repeat split; try reflexivity. discriminate. Qed.

(** C7, amended. A chunk whose [result.lastChunk] is truthy and which lacks
    a valid text part: when no content was extracted from an earlier chunk
    ([content] is still empty, as it is at the first chunk), the content is
    the string serialization of the whole chunk, which contains "lastChunk"
    and is not empty; otherwise the content extracted before is kept. *)
Theorem fallback_serializes_payload (content : value) (chunk_dict result : dict) :
  dict_get chunk_dict "result" = VDict result ->
  truthy (dict_get result "lastChunk") = true ->
  lacks_text_part result = true ->
  DirectorAgent.process_chunk content chunk_dict
  = inr (if truthy content then content else VStr (py_str (VDict chunk_dict)))
  /\ contains "lastChunk" (py_str (VDict chunk_dict)) = true
  /\ py_str (VDict chunk_dict) <> "".
Proof.
  intros Hres Hlast Hlack. repeat split.
  - now apply (ExtractFacts.process_chunk_fallback _ _ result).
  - apply infix_contains, (repr_chunk_lastChunk _ result Hres Hlast).
  - apply repr_dict_nonempty.
Qed.

(** A text-kind part with an empty text, at the first chunk. *)
Lemma fallback_serializes_payload_witness :
  let chunk_dict := [("result", VDict (result_with [text_part ""]))] in
  DirectorAgent.process_chunk (VStr "") chunk_dict
  = inr (VStr (py_str (VDict chunk_dict)))
  /\ contains "lastChunk" (py_str (VDict chunk_dict)) = true
  /\ py_str (VDict chunk_dict) <> "".
Proof.
  exact (fallback_serializes_payload (VStr "")
           [("result", VDict (result_with [text_part ""]))]
           (result_with [text_part ""])
           eq_refl eq_refl eq_refl).
Defined.

(** ** The translation of updates into events *)

(** C6. Every update is given exactly one state, by the precedence of the
    data model: the status-update events of its branch carry that state and
    no other, in both executors; an update with both booleans true is
    [input_required]; and each of the three states is the state of some
    update. *)
Theorem task_state_precedence :
  (forall (task : Task) (u : update),
      status_states (fst (DirectorAgentExecutor.handle_item task u))
      = [spec_task_state u]
      /\ status_states (fst (MCPAgentExecutor.handle_item task u))
         = [spec_task_state u])
  /\ (forall s : string,
        spec_task_state {| is_task_complete := true;
                           require_user_input := true;
                           content := s |} = input_required)
  /\ (forall st : TaskState, exists u : update, spec_task_state u = st).
Proof.
  repeat split.
  - destruct u as [[] [] s]; reflexivity.
  - destruct u as [[] [] s]; reflexivity.
  - intros [].
    + now exists {| is_task_complete := false; require_user_input := false; content := "" |}.
    + now exists {| is_task_complete := false; require_user_input := true; content := "" |}.
    + now exists {| is_task_complete := true; require_user_input := false; content := "" |}.
Qed.

(** C5. For the updates working "A" then complete "B" the executor
    enqueues exactly three events: the working status with message "A" and
    [final=False]; the artifact event with [append=False], [last_chunk=True]
    and the named, described text artifact "B"; the completed status with
    [final=True] and no message. *)
Theorem working_then_complete_events (new_task : Message -> Task) (query : string)
    (task : Task) (m : option Message) :
  DirectorAgentExecutor.execute new_task
    {| items := [ {| is_task_complete := false; require_user_input := false;
                     content := "A" |};
                  {| is_task_complete := true; require_user_input := false;
                     content := "B" |} ] |}
    {| user_input := query; current_task := Some task; request_message := m |}
  = ([ TaskStatusUpdateEvent
         {| state := working;
            message := Some {| msg_text := "A";
                               msg_context_id := context_id task;
                               msg_task_id := id task |} |}
         false (context_id task) (id task);
       TaskArtifactUpdateEvent false (context_id task) (id task) true
         {| name := "current_result";
            description := "Result of request to agent.";
            text := "B" |};
       TaskStatusUpdateEvent {| state := completed; message := None |}
         true (context_id task) (id task) ],
     inr tt).
Proof. reflexivity. Qed.

(** C2, as the claim states it, fails: the loop of the executor has no
    [break]. After the terminal status event of an [input_required] update,
    the events of the completion update that follows it are enqueued. *)
Lemma input_required_does_not_stop :
  let need_more := {| is_task_complete := false; require_user_input := true;
                      content := "need more" |} in
  let done := {| is_task_complete := true; require_user_input := false;
                 content := "B" |} in
  spec_task_state need_more = input_required
  /\ enqueued new_task1 {| items := [need_more; done] |} "q" task1 None
     = [ status_event input_required true task1 "need more";
         TaskArtifactUpdateEvent false "ctx-1" "task-1" true
           {| name := "current_result";
              description := "Result of request to agent.";
              text := "B" |};
         TaskStatusUpdateEvent {| state := completed; message := None |}
           true "ctx-1" "task-1" ]
  /\ enqueued new_task1 {| items := [need_more; done] |} "q" task1 None
     <> enqueued new_task1 {| items := [need_more] |} "q" task1 None.
Proof. repeat split. discriminate. Qed.

(** C2, amended. An update with [require_user_input] set gives exactly one
    status-update event: [input_required], [final=True], with the content as
    its message. The executor does not stop there, nor after a completion:
    the events of a sequence of updates are the events of its first updates
    followed by the events of the remaining ones, each update translated as
    it would be alone. *)
Theorem translate_around_input_required (new_task : Message -> Task)
    (query : string) (task : Task) (m : option Message) :
  (forall (complete : bool) (prompt : string),
      enqueued new_task
        {| items := [ {| is_task_complete := complete;
                         require_user_input := true;
                         content := prompt |} ] |} query task m
      = [status_event input_required true task prompt])
  /\ (forall pre post : list update,
         enqueued new_task {| items := pre ++ post |} query task m
         = (enqueued new_task {| items := pre |} query task m
            ++ enqueued new_task {| items := post |} query task m)%list).
Proof.
  split.
  - intros complete prompt. unfold enqueued.
    rewrite ExecutorFacts.execute_with_task.
    cbn [fst agent_stream Agent_DummyAgent items map yields flat_map].
    unfold events_of, DirectorAgentExecutor.handle_item.
    cbn [is_task_complete require_user_input content].
    rewrite andb_false_r. reflexivity.
  - intros pre post. unfold enqueued.
    rewrite !ExecutorFacts.execute_with_task.
    cbn [fst agent_stream Agent_DummyAgent items].
    now rewrite !ExecutorFacts.yields_map_Yield, flat_map_app.
Qed.

(** C9. A cancellation is always rejected: [cancel] of either executor
    raises the exception "cancel not supported" and enqueues nothing. *)
Theorem cancel_always_rejected (context : RequestContext) :
  DirectorAgentExecutor.cancel context
  = ([], inl (PyExn "Exception" "cancel not supported"))
  /\ MCPAgentExecutor.cancel context
     = ([], inl (PyExn "Exception" "cancel not supported")).
Proof. split; reflexivity. Qed.

(** ** The stream of the director agent *)

(** C10, as the claim states it, fails: both handlers of the stream are
    [except Exception]. When the transport is cancelled, the
    [CancelledError], which is no [Exception], leaves the generator after the
    working update and reaches the consumer. *)
Lemma stream_left_by_cancellation :
  let self := director (inr widgets_choice) (SendRaises (PyExn "CancelledError" "")) in
  DirectorAgent.initialized self = true
  /\ DirectorAgent.stream self "q" "s"
     = ([Yield DirectorAgent.processing_update; CallSelect "q";
         CallSend "widgets" [] "q"],
        inl (PyExn "CancelledError" ""))
  /\ snd (DirectorAgent.stream self "q" "s") <> inr tt.
Proof. repeat split. discriminate. Qed.

(** C10, amended. When the agent is initialized the first thing its stream
    does is to yield the working update "Processing request...": it is the
    head of the trace, before the call of the selection. So the stream
    yields at least one update on every path. No [Exception] of the
    selection or of the transport reaches the consumer: what leaves the
    generator, if anything, is no [Exception] (a cancellation, a keyboard
    interrupt). *)
Theorem stream_starts_with_processing (self : DirectorAgent.t)
    (query sessionId : string) :
  DirectorAgent.initialized self = true ->
  (exists rest : list action,
      fst (DirectorAgent.stream self query sessionId)
      = Yield {| is_task_complete := false;
                 require_user_input := false;
                 content := "Processing request..." |} :: rest)
  /\ yields (fst (DirectorAgent.stream self query sessionId)) <> []
  /\ (forall e : exn,
         snd (DirectorAgent.stream self query sessionId) = inl e ->
         is_Exception e = false).
Proof.
  intros Hinit.
  destruct (DirectorAgent.client self query) as [e | choice] eqn:Hc.
  - destruct (is_Exception e) eqn:He.
    + assert (selection_error (DirectorAgent.client self query) = Some (exn_str e))
        as Hsel by (unfold selection_error; now rewrite Hc, He).
      rewrite (StreamFacts.stream_selection_error self query sessionId _ Hinit Hsel).
      repeat split; [eexists; reflexivity | discriminate | discriminate].
    + rewrite (StreamFacts.stream_selection_interrupted self query sessionId e Hinit Hc He).
      repeat split; [eexists; reflexivity | discriminate |].
      cbn. now intros e' [= <-].
  - destruct (agent_id choice =? "WidgetsAgent") eqn:Hid.
    + apply String.eqb_eq in Hid.
      rewrite (StreamFacts.stream_routed self query sessionId choice Hinit Hc Hid).
      destruct (DirectorAgent.consume _ _) as [c [e|]];
        [destruct (is_Exception e) eqn:He |];
        repeat split; try (eexists; reflexivity); try discriminate.
      cbn. now intros e' [= <-].
    + assert (selection_error (DirectorAgent.client self query)
              = Some ("Unknown agent_id: " ++ agent_id choice))
        as Hsel by (unfold selection_error; now rewrite Hc, Hid).
      rewrite (StreamFacts.stream_selection_error self query sessionId _ Hinit Hsel).
      repeat split; [eexists; reflexivity | discriminate | discriminate].
Qed.

(** The transport raises: the stream still starts with the working update
    and nothing reaches the consumer. *)
Lemma stream_starts_with_processing_witness :
  (exists rest : list action,
      fst (DirectorAgent.stream
             (director (inr widgets_choice) (SendRaises (PyExn "Exception" "A2A error")))
             "q" "s")
      = Yield {| is_task_complete := false;
                 require_user_input := false;
                 content := "Processing request..." |} :: rest)
  /\ yields (fst (DirectorAgent.stream
             (director (inr widgets_choice) (SendRaises (PyExn "Exception" "A2A error")))
             "q" "s")) <> []
  /\ (forall e : exn,
         snd (DirectorAgent.stream
                (director (inr widgets_choice) (SendRaises (PyExn "Exception" "A2A error")))
                "q" "s") = inl e ->
         is_Exception e = false).
Proof.
  apply (stream_starts_with_processing
           (director (inr widgets_choice) (SendRaises (PyExn "Exception" "A2A error")))
           "q" "s").
  reflexivity.
Defined.

(** C8. The selection raises, or returns an agent id other than
    "WidgetsAgent": after the working update the stream yields one update
    that requires user input, whose content is "Error processing request: "
    and the error text (for an unknown id, "Unknown agent_id: " and the id),
    and ends. The selection is called once, the transport is not called, and
    the executor enqueues a single terminal event, the [input_required]
    status with that message, after the progress event. *)
Theorem selection_failure_single_terminal_event (new_task : Message -> Task)
    (self : DirectorAgent.t) (query : string) (task : Task) (m : option Message)
    (err : string) :
  DirectorAgent.initialized self = true ->
  selection_error (DirectorAgent.client self query) = Some err ->
  let message := "Error processing request: " ++ err in
  let trace := fst (DirectorAgent.stream self query (context_id task)) in
  let events := enqueued new_task self query task m in
  trace = [ Yield DirectorAgent.processing_update;
            CallSelect query;
            Yield {| is_task_complete := false;
                     require_user_input := true;
                     content := message |} ]
  /\ events = [ status_event working false task "Processing request...";
                status_event input_required true task message ]
  /\ filter is_final events = [ status_event input_required true task message ]
  /\ contains err message = true
  /\ (forall choice : AgentSelectionResult,
         DirectorAgent.client self query = inr choice ->
         contains (agent_id choice) message = true)
  /\ existsb is_call_send trace = false
  /\ length (filter is_call_select trace) = 1
  /\ snd (DirectorAgentExecutor.execute new_task self
            {| user_input := query; current_task := Some task;
               request_message := m |}) = inr tt.
Proof.
  intros Hinit Hsel message trace events.
  pose proof (StreamFacts.stream_selection_error self query (context_id task) err
                Hinit Hsel) as Hstream.
  assert (trace = [ Yield DirectorAgent.processing_update; CallSelect query;
                    Yield {| is_task_complete := false; require_user_input := true;
                             content := message |} ]) as Htrace.
  { unfold trace. now rewrite Hstream. }
  assert (events = [ status_event working false task "Processing request...";
                     status_event input_required true task message ]) as Hevents.
  { unfold events, enqueued. rewrite ExecutorFacts.execute_with_task.
    unfold agent_stream, Agent_DirectorAgent. rewrite Hstream. reflexivity. }
  repeat split.
  - exact Htrace.
  - exact Hevents.
  - rewrite Hevents. reflexivity.
  - apply infix_contains, infix_app_r, infix_refl.
  - intros choice Hc. apply infix_contains.
    unfold selection_error in Hsel. rewrite Hc in Hsel.
    destruct (agent_id choice =? "WidgetsAgent"); [discriminate |].
    injection Hsel as <-.
    exists "Error processing request: Unknown agent_id: ", "".
    rewrite append_nil_r. reflexivity.
  - rewrite Htrace. reflexivity.
  - rewrite Htrace. reflexivity.
  - rewrite ExecutorFacts.execute_with_task.
    unfold agent_stream, Agent_DirectorAgent. now rewrite Hstream.
Qed.

(** The selection returns "UNKNOWN" (the tests' unknown agent). *)
Lemma selection_failure_single_terminal_event_witness :
  enqueued new_task1
    (director (inr {| agent_id := "UNKNOWN"; reasoning := "unknown" |})
              (SendStreams [] EndOfStream))
    "What is foo?" task1 None
  = [ status_event working false task1 "Processing request...";
      status_event input_required true task1
        "Error processing request: Unknown agent_id: UNKNOWN" ].
Proof.
  apply (selection_failure_single_terminal_event new_task1
           (director (inr {| agent_id := "UNKNOWN"; reasoning := "unknown" |})
                     (SendStreams [] EndOfStream))
           "What is foo?" task1 None "Unknown agent_id: UNKNOWN");
    reflexivity.
Defined.

(** C3, as the claim states it, fails: when [send_message_streaming]
    raises, four events are enqueued for the request, not one. The progress
    event comes first, and after the terminal error event the stream still
    yields its completion update, which gives an artifact event and a
    completed event. *)
Lemma transport_failure_events :
  let self := director (inr widgets_choice) (SendRaises (PyExn "Exception" "A2A error")) in
  raises_first (DirectorAgent.a2a_clients_widgets self (request_headers self) "q")
  = Some (PyExn "Exception" "A2A error")
  /\ enqueued new_task1 self "q" task1 None
     = [ status_event working false task1 "Processing request...";
         status_event input_required true task1 "Error processing request: A2A error";
         TaskArtifactUpdateEvent false "ctx-1" "task-1" true
           {| name := "current_result";
              description := "Result of request to agent.";
              text := "Agent WidgetsAgent response: ." |};
         TaskStatusUpdateEvent {| state := completed; message := None |}
           true "ctx-1" "task-1" ]
  /\ length (enqueued new_task1 self "q" task1 None) <> 1
  /\ existsb is_artifact_event (enqueued new_task1 self "q" task1 None) = true.
Proof. repeat split. discriminate. Qed.

(** C3, amended. When the transport raises before its first chunk, the
    progress event ("Processing request...", working, [final=False]) is
    enqueued first, and next a terminal status-update event
    ([input_required], [final=True]) whose message is "Error processing
    request: " and the string of the exception, so it contains both. *)
Theorem transport_failure_error_event (new_task : Message -> Task)
    (self : DirectorAgent.t) (query : string) (task : Task) (m : option Message)
    (choice : AgentSelectionResult) (e : exn) :
  DirectorAgent.initialized self = true ->
  DirectorAgent.client self query = inr choice ->
  agent_id choice = "WidgetsAgent" ->
  raises_first (DirectorAgent.a2a_clients_widgets self (request_headers self) query)
  = Some e ->
  let message := "Error processing request: " ++ exn_str e in
  (exists rest : list Event,
      enqueued new_task self query task m
      = status_event working false task "Processing request..."
        :: status_event input_required true task message
        :: rest)
  /\ contains "Error processing request" message = true
  /\ contains (exn_str e) message = true.
Proof.
  intros Hinit Hc Hid Hraise message. split; [| split].
  - unfold enqueued. rewrite ExecutorFacts.execute_with_task.
    unfold agent_stream, Agent_DirectorAgent.
    rewrite (StreamFacts.stream_routed self query (context_id task) choice Hinit Hc Hid).
    rewrite (StreamFacts.consume_raises_first _ _ e Hraise).
    rewrite (StreamFacts.raises_first_Exception _ e Hraise).
    eexists. reflexivity.
  - apply infix_contains, infix_app_l. exists "", ": ". reflexivity.
  - apply infix_contains, infix_app_r, infix_refl.
Qed.

(** The tests' [ErrorA2AClient]. *)
Lemma transport_failure_error_event_witness :
  (exists rest : list Event,
      enqueued new_task1
        (director (inr widgets_choice) (SendRaises (PyExn "Exception" "A2A error")))
        "q" task1 None
      = status_event working false task1 "Processing request..."
        :: status_event input_required true task1 "Error processing request: A2A error"
        :: rest)
  /\ contains "Error processing request" "Error processing request: A2A error" = true
  /\ contains "A2A error" "Error processing request: A2A error" = true.
Proof.
  apply (transport_failure_error_event new_task1
           (director (inr widgets_choice) (SendRaises (PyExn "Exception" "A2A error")))
           "q" task1 None widgets_choice (PyExn "Exception" "A2A error"));
    reflexivity.
Defined.

(** * Further properties of the code *)

(** ** The loop over the chunks *)

Module ChunkFacts.
Import DirectorAgent.

Lemma find_text_some (content : value) (parts : list value) (t : string) :
  find_text parts = Some (Some t) ->
  scan_parts content parts = inr (VStr t).
Proof.
  induction parts as [|p parts IH]; [discriminate |].
  cbn [find_text]. destruct (text_of_part p) as [t'|] eqn:Hp.
  - intros [= ->]. now apply ExtractFacts.scan_parts_hit.
  - destruct (is_part p) eqn:Hpart; [| discriminate].
    intros H. rewrite ExtractFacts.scan_parts_skip; auto.
    unfold no_text. now rewrite Hp.
Qed.

Lemma find_text_none (content : value) (parts : list value) :
  find_text parts = Some None ->
  scan_parts content parts = inr content.
Proof.
  induction parts as [|p parts IH]; [reflexivity |].
  cbn [find_text]. destruct (text_of_part p) as [t'|] eqn:Hp; [discriminate |].
  destruct (is_part p) eqn:Hpart; [| discriminate].
  intros H. rewrite ExtractFacts.scan_parts_skip; auto.
  unfold no_text. now rewrite Hp.
Qed.

Lemma text_of_part_nonempty (p : value) (t : string) :
  text_of_part p = Some t -> truthy (VStr t) = true.
Proof.
  destruct p as [| | | |l|d]; try discriminate. simpl.
  destruct (dict_get d "kind") as [| | |k| |]; try discriminate.
  destruct (dict_get d "text") as [| | |s| |]; try discriminate.
  destruct (k =? "text"); [| discriminate].
  destruct (negb (s =? "")) eqn:E; [| discriminate].
  now intros [= <-].
Qed.

Lemma find_text_nonempty (parts : list value) (t : string) :
  find_text parts = Some (Some t) -> truthy (VStr t) = true.
Proof.
  induction parts as [|p parts IH]; [discriminate |].
  cbn [find_text]. destruct (text_of_part p) as [t'|] eqn:Hp.
  - intros [= <-]. now apply (text_of_part_nonempty p).
  - destruct (is_part p); [exact IH | discriminate].
Qed.

Lemma process_chunk_class (content : value) (chunk_dict : dict) (k : chunk_class) :
  classify_chunk chunk_dict = Some k ->
  process_chunk content chunk_dict = inr (class_step k content chunk_dict).
Proof.
  unfold classify_chunk, process_chunk.
  assert (forall c : value,
             @inr exn value (if negb (truthy c) then VStr (py_str (VDict chunk_dict)) else c)
             = inr (if truthy c then c else VStr (py_str (VDict chunk_dict)))) as Hfin.
  { intros c. now destruct (truthy c). }
  destruct (dict_get chunk_dict "result") as [|b|z|s|l|result] eqn:Hres.
  - now intros [= <-].
  - cbn [truthy]. destruct b; [discriminate | now intros [= <-]].
  - cbn [truthy]. destruct (negb (z =? 0)%Z); [discriminate | now intros [= <-]].
  - cbn [truthy]. destruct (negb (s =? "")); [discriminate | now intros [= <-]].
  - cbn [truthy]. destruct l; [now intros [= <-] | discriminate].
  - destruct (truthy (dict_get result "lastChunk")) eqn:Hlast.
    + rewrite (ExtractFacts.result_truthy _ Hlast).
      cbn [py_get py_get_default bind ret Monad_result].
      fold (dict_get result "lastChunk"). rewrite Hlast.
      fold (dict_get result "artifact").
      destruct (dict_get result "artifact") as [|b|z|s|l|artifact].
      * intros [= <-]. apply Hfin.
      * cbn [truthy]. destruct b; [discriminate | intros [= <-]; apply Hfin].
      * cbn [truthy]. destruct (negb (z =? 0)%Z); [discriminate | intros [= <-]; apply Hfin].
      * cbn [truthy]. destruct (negb (s =? "")); [discriminate | intros [= <-]; apply Hfin].
      * cbn [truthy]. destruct l; [intros [= <-]; apply Hfin | discriminate].
      * destruct artifact as [|kv artifact].
        { cbn. intros [= <-]. apply Hfin. }
        cbn [truthy py_get_default ret Monad_result].
        destruct (dict_get_default (kv :: artifact) "parts" (VList [])) as [| | | |parts|];
          try discriminate.
        cbn [py_iter ret Monad_result].
        destruct (find_text parts) as [[t|]|] eqn:Hfind; try discriminate.
        -- intros [= <-]. rewrite (find_text_some content parts t Hfind).
           cbn [class_step]. now rewrite (find_text_nonempty parts t Hfind).
        -- intros [= <-]. rewrite (find_text_none content parts Hfind). apply Hfin.
    + intros [= <-]. destruct result as [|kv result]; [reflexivity |].
      cbn [truthy py_get py_get_default bind ret Monad_result].
      fold (dict_get (kv :: result) "lastChunk"). now rewrite Hlast.
Qed.

Lemma consume_chunks_app (content : value) (xs ys : list dict) (fin : stream_end) :
  consume_chunks content (xs ++ ys) fin
  = match consume_chunks content xs EndOfStream with
    | (content', None) => consume_chunks content' ys fin
    | (content', Some e) => (content', Some e)
    end.
Proof.
  revert content. induction xs as [|x xs IH]; intros content; [reflexivity |].
  cbn [app consume_chunks]. destruct (process_chunk content x); [reflexivity | apply IH].
Qed.

Lemma consume_not_last (content : value) (chunks : list dict) (fin : stream_end) :
  forallb is_not_last chunks = true ->
  consume_chunks content chunks fin = (content, end_exn fin).
Proof.
  induction chunks as [|c chunks IH]; [reflexivity |].
  cbn [forallb]. intros [Hc H]%andb_true_iff.
  unfold is_not_last in Hc. destruct (classify_chunk c) as [[| |]|] eqn:Hk; try discriminate.
  cbn [consume_chunks]. rewrite (process_chunk_class content c NotLast Hk). now apply IH.
Qed.

Lemma consume_no_text (content : value) (chunks : list dict) (fin : stream_end) :
  truthy content = true ->
  forallb has_no_text chunks = true ->
  consume_chunks content chunks fin = (content, end_exn fin).
Proof.
  intros Hc. induction chunks as [|c chunks IH]; [reflexivity |].
  cbn [forallb]. intros [Hk H]%andb_true_iff.
  unfold has_no_text in Hk.
  destruct (classify_chunk c) as [[| |]|] eqn:Hcl; try discriminate;
    cbn [consume_chunks]; rewrite (process_chunk_class content c _ Hcl);
    cbn [class_step]; rewrite ?Hc; now apply IH.
Qed.

Lemma consume_classified (content : value) (chunks : list dict) :
  forallb is_classified chunks = true ->
  snd (consume_chunks content chunks EndOfStream) = None.
Proof.
  revert content. induction chunks as [|c chunks IH]; intros content; [reflexivity |].
  cbn [forallb]. intros [Hk H]%andb_true_iff.
  unfold is_classified in Hk. destruct (classify_chunk c) as [k|] eqn:Hcl; [| discriminate].
  cbn [consume_chunks]. rewrite (process_chunk_class content c k Hcl). now apply IH.
Qed.

End ChunkFacts.

(** X1. A chunk without a [result], or whose [result.lastChunk] is falsy, leaves
    [content] as it was: nothing is extracted from a chunk that is not the
    last one of an artifact. *)
Theorem non_final_chunk_keeps_content (content : value) (chunk_dict : dict) :
  truthy (dict_get chunk_dict "result") = false
  \/ (exists result : dict,
         dict_get chunk_dict "result" = VDict result
         /\ truthy (dict_get result "lastChunk") = false) ->
  DirectorAgent.process_chunk content chunk_dict = inr content.
Proof.
  intros [H | (result & Hres & Hlast)]; unfold DirectorAgent.process_chunk.
  - now rewrite H.
  - rewrite Hres. destruct result as [|kv result]; [reflexivity |].
    cbn [truthy py_get py_get_default bind ret Monad_result].
    fold (dict_get (kv :: result) "lastChunk"). now rewrite Hlast.
Qed.

Lemma non_final_chunk_keeps_content_witness :
  DirectorAgent.process_chunk (VStr "kept")
    [("result", VDict [("lastChunk", VBool false);
                       ("artifact", VDict [("parts", VList [text_part "ignored"])])])]
  = inr (VStr "kept").
Proof.
  apply (non_final_chunk_keeps_content (VStr "kept")
           [("result", VDict [("lastChunk", VBool false);
                              ("artifact", VDict [("parts", VList [text_part "ignored"])])])]).
  right.
  exists [("lastChunk", VBool false);
          ("artifact", VDict [("parts", VList [text_part "ignored"])])].
  split; reflexivity.
Defined.

(** X2. A chunk whose [result] is truthy and is no mapping stops the loop with an
    [AttributeError]: the chunks after it are not read, and [content] is what
    the chunks before it left. *)
Theorem malformed_result_stops_loop (content : value) (pre post : list dict)
    (bad : dict) (r : value) (fin : stream_end) :
  forallb is_classified pre = true ->
  dict_get bad "result" = r ->
  truthy r = true ->
  (forall d : dict, r <> VDict d) ->
  DirectorAgent.consume_chunks content (pre ++ bad :: post) fin
  = (fst (DirectorAgent.consume_chunks content pre EndOfStream),
     Some (PyExn "AttributeError"
             ("'" ++ type_name r ++ "' object has no attribute 'get'"))).
Proof.
  intros Hpre Hres Htruthy Hnot.
  rewrite ChunkFacts.consume_chunks_app.
  pose proof (ChunkFacts.consume_classified content pre Hpre) as Hok.
  destruct (DirectorAgent.consume_chunks content pre EndOfStream) as [c o].
  cbn [snd] in Hok. subst o. cbn [fst DirectorAgent.consume_chunks].
  unfold DirectorAgent.process_chunk. rewrite Hres, Htruthy.
  destruct r as [| | | | |d]; try reflexivity. now elim (Hnot d).
Qed.

Lemma malformed_result_stops_loop_witness :
  DirectorAgent.consume_chunks (VStr "")
    [ [("result", VDict (result_with [text_part "first"]))];
      [("result", VStr "oops")];
      [("result", VDict (result_with [text_part "never read"]))] ]
    EndOfStream
  = (VStr "first",
     Some (PyExn "AttributeError" "'str' object has no attribute 'get'")).
Proof.
  apply (malformed_result_stops_loop (VStr "")
           [ [("result", VDict (result_with [text_part "first"]))] ]
           [ [("result", VDict (result_with [text_part "never read"]))] ]
           [("result", VStr "oops")] (VStr "oops") EndOfStream);
    try reflexivity.
  discriminate.
Defined.

(** ** The director agent, end to end *)

Module DirectorFacts.
Import DirectorAgent.

(** The content after a stream whose last chunk with a text is [c]. *)
Lemma consume_last_text (content : value) (pre post : list dict) (c : dict)
    (t : string) (fin : stream_end) :
  forallb is_classified pre = true ->
  classify_chunk c = Some (HasText t) ->
  forallb has_no_text post = true ->
  consume_chunks content (pre ++ c :: post) fin = (VStr t, end_exn fin).
Proof.
  intros Hpre Hc Hpost. rewrite ChunkFacts.consume_chunks_app.
  pose proof (ChunkFacts.consume_classified content pre Hpre) as Hok.
  destruct (consume_chunks content pre EndOfStream) as [c0 o].
  cbn [snd] in Hok. subst o. cbn [consume_chunks].
  rewrite (ChunkFacts.process_chunk_class c0 c _ Hc). cbn [class_step].
  apply ChunkFacts.consume_no_text; [| exact Hpost].
  unfold classify_chunk in Hc.
  destruct (dict_get c "result") as [|b|z|s|l|result];
    try (destruct (truthy _); discriminate).
  destruct (truthy (dict_get result "lastChunk")); [| discriminate].
  destruct (dict_get result "artifact") as [|b|z|s|l|artifact];
    try (destruct (truthy _); discriminate).
  destruct (dict_get_default artifact "parts" (VList [])) as [| | | |parts|];
    try discriminate.
  destruct (find_text parts) as [[t'|]|] eqn:Hfind; try discriminate.
  injection Hc as <-. now apply (ChunkFacts.find_text_nonempty parts).
Qed.

(** The yields of a routed stream, from what the inner [try] leaves. *)
Lemma yields_routed (self : t) (query sessionId : string)
    (choice : AgentSelectionResult) (content : value) (o : option exn) :
  initialized self = true ->
  client self query = inr choice ->
  agent_id choice = "WidgetsAgent" ->
  consume (VStr "") (a2a_clients_widgets self (request_headers self) query)
  = (content, o) ->
  match o with
  | Some e =>
      if is_Exception e
      then yields (fst (stream self query sessionId))
           = [processing_update; error_update e; final_update choice content]
           /\ snd (stream self query sessionId) = inr tt
      else yields (fst (stream self query sessionId)) = [processing_update]
           /\ snd (stream self query sessionId) = inl e
  | None =>
      yields (fst (stream self query sessionId))
      = [processing_update; final_update choice content]
      /\ snd (stream self query sessionId) = inr tt
  end.
Proof.
  intros Hinit Hc Hid Hcons.
  rewrite (StreamFacts.stream_routed self query sessionId choice Hinit Hc Hid), Hcons.
  destruct o as [e|]; [destruct (is_Exception e) |]; split; reflexivity.
Qed.

(** The paths of the stream of an initialized agent. *)
Lemma stream_paths (self : t) (query sessionId : string) :
  initialized self = true ->
  (exists err : string,
      stream self query sessionId
      = ([Yield processing_update; CallSelect query;
          Yield {| is_task_complete := false; require_user_input := true;
                   content := "Error processing request: " ++ err |}], inr tt))
  \/ (exists e : exn,
         is_Exception e = false
         /\ stream self query sessionId
            = ([Yield processing_update; CallSelect query], inl e))
  \/ (exists (choice : AgentSelectionResult) (content : value) (o : option exn),
         client self query = inr choice
         /\ agent_id choice = "WidgetsAgent"
         /\ stream self query sessionId
            = match o with
              | Some e =>
                  if is_Exception e
                  then ([Yield processing_update; CallSelect query;
                         CallSend "widgets" (request_headers self) query;
                         Yield (error_update e); Yield (final_update choice content)],
                        inr tt)
                  else ([Yield processing_update; CallSelect query;
                         CallSend "widgets" (request_headers self) query], inl e)
              | None =>
                  ([Yield processing_update; CallSelect query;
                    CallSend "widgets" (request_headers self) query;
                    Yield (final_update choice content)], inr tt)
              end).
Proof.
  intros Hinit.
  destruct (client self query) as [e | choice] eqn:Hc.
  - destruct (is_Exception e) eqn:He.
    + left. exists (exn_str e).
      apply StreamFacts.stream_selection_error; [exact Hinit |].
      unfold selection_error. now rewrite Hc, He.
    + right. left. exists e. split; [exact He |].
      now apply StreamFacts.stream_selection_interrupted.
  - destruct (agent_id choice =? "WidgetsAgent") eqn:Hid.
    + apply String.eqb_eq in Hid. right. right.
      destruct (consume (VStr "") (a2a_clients_widgets self (request_headers self) query))
        as [content o] eqn:Hcons.
      exists choice, content, o. repeat split; auto.
      now rewrite (StreamFacts.stream_routed self query sessionId choice Hinit Hc Hid), Hcons.
    + left. exists ("Unknown agent_id: " ++ agent_id choice).
      apply StreamFacts.stream_selection_error; [exact Hinit |].
      unfold selection_error. now rewrite Hc, Hid.
Qed.

End DirectorFacts.

(** X3. The last text wins. When the selection routes to the widgets agent and
    the transport ends normally, and [c] is the last chunk with a valid text
    part (the chunks after it are not last chunks or have no text), the
    stream yields the working update and then the completion
    "Agent WidgetsAgent response: <text>.", and the executor enqueues the
    working status, the artifact with that content and the completed status. *)
Theorem last_text_is_reported (new_task : Message -> Task) (self : DirectorAgent.t)
    (query : string) (task : Task) (m : option Message)
    (choice : AgentSelectionResult) (pre post : list dict) (c : dict) (t : string) :
  DirectorAgent.initialized self = true ->
  DirectorAgent.client self query = inr choice ->
  agent_id choice = "WidgetsAgent" ->
  DirectorAgent.a2a_clients_widgets self (request_headers self) query
  = SendStreams (pre ++ c :: post) EndOfStream ->
  forallb is_classified pre = true ->
  classify_chunk c = Some (HasText t) ->
  forallb has_no_text post = true ->
  let answer := "Agent WidgetsAgent response: " ++ t ++ "." in
  yields (fst (DirectorAgent.stream self query (context_id task)))
  = [ DirectorAgent.processing_update;
      {| is_task_complete := true; require_user_input := false; content := answer |} ]
  /\ DirectorAgentExecutor.execute new_task self
       {| user_input := query; current_task := Some task; request_message := m |}
     = ([ status_event working false task "Processing request...";
          artifact_event task answer;
          completed_event task ], inr tt).
Proof.
  intros Hinit Hc Hid Hsend Hpre Hcl Hpost answer.
  assert (DirectorAgent.consume (VStr "")
            (DirectorAgent.a2a_clients_widgets self (request_headers self) query)
          = (VStr t, None)) as Hcons.
  { rewrite Hsend. cbn [DirectorAgent.consume].
    now rewrite (DirectorFacts.consume_last_text _ pre post c t EndOfStream). }
  destruct (DirectorFacts.yields_routed self query (context_id task) choice _ _
              Hinit Hc Hid Hcons) as [Hy Hs].
  assert (final_update choice (VStr t)
          = {| is_task_complete := true; require_user_input := false;
               content := answer |}) as Hfinal.
  { unfold final_update, answer. now rewrite Hid. }
  rewrite Hfinal in Hy. split; [exact Hy |].
  rewrite ExecutorFacts.execute_with_task.
  unfold agent_stream, Agent_DirectorAgent. now rewrite Hy, Hs.
Qed.

(** The scenario of the specification: one chunk, "42 newtons". *)
Lemma last_text_is_reported_witness :
  yields (fst (DirectorAgent.stream
                 (director (inr widgets_choice)
                    (SendStreams [ [("result", VDict (result_with [text_part "42 newtons"]))] ]
                                 EndOfStream))
                 "q" "ctx-1"))
  = [ DirectorAgent.processing_update;
      {| is_task_complete := true; require_user_input := false;
         content := "Agent WidgetsAgent response: 42 newtons." |} ].
Proof.
  apply (last_text_is_reported new_task1
           (director (inr widgets_choice)
              (SendStreams [ [("result", VDict (result_with [text_part "42 newtons"]))] ]
                           EndOfStream))
           "q" task1 None widgets_choice
           [] [] [("result", VDict (result_with [text_part "42 newtons"]))] "42 newtons");
    reflexivity.
Defined.

(** X4. No last chunk, no content. When no chunk of the stream is a last chunk
    (also when the stream has no chunk at all) and the transport ends
    normally, the completion update carries an empty answer:
    "Agent WidgetsAgent response: .". *)
Theorem no_last_chunk_empty_answer (self : DirectorAgent.t) (query sessionId : string)
    (choice : AgentSelectionResult) (chunks : list dict) :
  DirectorAgent.initialized self = true ->
  DirectorAgent.client self query = inr choice ->
  agent_id choice = "WidgetsAgent" ->
  DirectorAgent.a2a_clients_widgets self (request_headers self) query
  = SendStreams chunks EndOfStream ->
  forallb is_not_last chunks = true ->
  yields (fst (DirectorAgent.stream self query sessionId))
  = [ DirectorAgent.processing_update;
      {| is_task_complete := true; require_user_input := false;
         content := "Agent WidgetsAgent response: ." |} ].
Proof.
  intros Hinit Hc Hid Hsend Hall.
  assert (DirectorAgent.consume (VStr "")
            (DirectorAgent.a2a_clients_widgets self (request_headers self) query)
          = (VStr "", None)) as Hcons.
  { rewrite Hsend. cbn [DirectorAgent.consume].
    now rewrite (ChunkFacts.consume_not_last _ chunks EndOfStream Hall). }
  destruct (DirectorFacts.yields_routed self query sessionId choice _ _
              Hinit Hc Hid Hcons) as [Hy _].
  rewrite Hy. unfold final_update. now rewrite Hid.
Qed.

Lemma no_last_chunk_empty_answer_witness :
  yields (fst (DirectorAgent.stream
                 (director (inr widgets_choice)
                    (SendStreams [ [("result", VDict [("lastChunk", VBool false)])] ]
                                 EndOfStream))
                 "q" "s"))
  = [ DirectorAgent.processing_update;
      {| is_task_complete := true; require_user_input := false;
         content := "Agent WidgetsAgent response: ." |} ].
Proof.
  apply (no_last_chunk_empty_answer
           (director (inr widgets_choice)
              (SendStreams [ [("result", VDict [("lastChunk", VBool false)])] ] EndOfStream))
           "q" "s" widgets_choice [ [("result", VDict [("lastChunk", VBool false)])] ]);
    reflexivity.
Defined.

(** X5. A transport that raises an [Exception] after its chunks loses
    nothing of them: the stream yields the error update and then the
    completion with the content the same chunks give when the transport ends
    normally. *)
Theorem failure_keeps_partial_content (self : DirectorAgent.t)
    (query sessionId : string) (choice : AgentSelectionResult)
    (chunks : list dict) (e : exn) :
  DirectorAgent.initialized self = true ->
  DirectorAgent.client self query = inr choice ->
  agent_id choice = "WidgetsAgent" ->
  DirectorAgent.a2a_clients_widgets self (request_headers self) query
  = SendStreams chunks (StreamRaises e) ->
  is_Exception e = true ->
  forallb is_classified chunks = true ->
  yields (fst (DirectorAgent.stream self query sessionId))
  = [ DirectorAgent.processing_update;
      {| is_task_complete := false; require_user_input := true;
         content := "Error processing request: " ++ exn_str e |};
      {| is_task_complete := true; require_user_input := false;
         content := "Agent WidgetsAgent response: "
                    ++ py_str (fst (DirectorAgent.consume_chunks (VStr "") chunks EndOfStream))
                    ++ "." |} ].
Proof.
  intros Hinit Hc Hid Hsend He Hall.
  assert (DirectorAgent.consume (VStr "")
            (DirectorAgent.a2a_clients_widgets self (request_headers self) query)
          = (fst (DirectorAgent.consume_chunks (VStr "") chunks EndOfStream), Some e))
    as Hcons.
  { rewrite Hsend. cbn [DirectorAgent.consume].
    rewrite <- (app_nil_r chunks) at 1. rewrite ChunkFacts.consume_chunks_app.
    pose proof (ChunkFacts.consume_classified (VStr "") chunks Hall) as Hok.
    destruct (DirectorAgent.consume_chunks (VStr "") chunks EndOfStream) as [c o].
    cbn [snd] in Hok. now subst o. }
  pose proof (DirectorFacts.yields_routed self query sessionId choice _ _
                Hinit Hc Hid Hcons) as Hy.
  cbn beta iota in Hy. rewrite He in Hy. destruct Hy as [Hy _].
  rewrite Hy. unfold final_update, DirectorAgent.error_update. now rewrite Hid.
Qed.

Lemma failure_keeps_partial_content_witness :
  yields (fst (DirectorAgent.stream
                 (director (inr widgets_choice)
                    (SendStreams [ [("result", VDict (result_with [text_part "partial"]))] ]
                                 (StreamRaises (PyExn "ReadError" "connection lost"))))
                 "q" "s"))
  = [ DirectorAgent.processing_update;
      {| is_task_complete := false; require_user_input := true;
         content := "Error processing request: connection lost" |};
      {| is_task_complete := true; require_user_input := false;
         content := "Agent WidgetsAgent response: partial." |} ].
Proof.
  apply (failure_keeps_partial_content
           (director (inr widgets_choice)
              (SendStreams [ [("result", VDict (result_with [text_part "partial"]))] ]
                           (StreamRaises (PyExn "ReadError" "connection lost"))))
           "q" "s" widgets_choice
           [ [("result", VDict (result_with [text_part "partial"]))] ]
           (PyExn "ReadError" "connection lost"));
    reflexivity.
Defined.

(** X6. The token of the request is forwarded. When the selection routes to the
    widgets agent, the transport is called exactly once, after the selection,
    with the header [Authorization: token] when the context variable holds a
    non-empty token, and with no header when it holds none or an empty one. *)
Theorem token_forwarded_to_transport (self : DirectorAgent.t)
    (query sessionId : string) (choice : AgentSelectionResult) :
  DirectorAgent.initialized self = true ->
  DirectorAgent.client self query = inr choice ->
  agent_id choice = "WidgetsAgent" ->
  let calls := filter (fun a => is_call_select a || is_call_send a)
                      (fst (DirectorAgent.stream self query sessionId)) in
  (forall token : string,
      DirectorAgent.oauth_token_ctx self = Some token -> token <> "" ->
      calls = [CallSelect query; CallSend "widgets" [("Authorization", token)] query])
  /\ (DirectorAgent.oauth_token_ctx self = None
      \/ DirectorAgent.oauth_token_ctx self = Some "" ->
      calls = [CallSelect query; CallSend "widgets" [] query]).
Proof.
  intros Hinit Hc Hid calls.
  assert (calls = [CallSelect query; CallSend "widgets" (request_headers self) query])
    as Hcalls.
  { unfold calls.
    rewrite (StreamFacts.stream_routed self query sessionId choice Hinit Hc Hid).
    destruct (DirectorAgent.consume _ _) as [c [e|]];
      [destruct (is_Exception e) |]; reflexivity. }
  rewrite Hcalls. unfold request_headers. split.
  - intros token -> Hne. apply String.eqb_neq in Hne. now rewrite Hne.
  - intros [-> | ->]; reflexivity.
Qed.

Lemma token_forwarded_to_transport_witness :
  filter (fun a => is_call_select a || is_call_send a)
    (fst (DirectorAgent.stream
            {| DirectorAgent.client := fun _ => inr widgets_choice;
               DirectorAgent.a2a_clients_widgets := fun _ _ => SendStreams [] EndOfStream;
               DirectorAgent.initialized := true;
               DirectorAgent.oauth_token_ctx := Some "Bearer abc123" |}
            "q" "s1"))
  = [CallSelect "q"; CallSend "widgets" [("Authorization", "Bearer abc123")] "q"].
Proof.
  apply (proj1 (token_forwarded_to_transport
                  {| DirectorAgent.client := fun _ => inr widgets_choice;
                     DirectorAgent.a2a_clients_widgets := fun _ _ => SendStreams [] EndOfStream;
                     DirectorAgent.initialized := true;
                     DirectorAgent.oauth_token_ctx := Some "Bearer abc123" |}
                  "q" "s1" widgets_choice eq_refl eq_refl eq_refl)
               "Bearer abc123" eq_refl).
  discriminate.
Defined.

(** X7. One request, at most one call of each collaborator. On every path the
    stream calls the selection at most once and the transport at most once,
    and it calls the transport only when the agent is initialized and the
    selection returned "WidgetsAgent". *)
Theorem collaborators_called_at_most_once (self : DirectorAgent.t)
    (query sessionId : string) :
  let trace := fst (DirectorAgent.stream self query sessionId) in
  length (filter is_call_select trace) <= 1
  /\ length (filter is_call_send trace) <= 1
  /\ (existsb is_call_send trace = true ->
      DirectorAgent.initialized self = true
      /\ exists choice : AgentSelectionResult,
           DirectorAgent.client self query = inr choice
           /\ agent_id choice = "WidgetsAgent").
Proof.
  intros trace. unfold trace.
  destruct (DirectorAgent.initialized self) eqn:Hinit.
  - destruct (DirectorFacts.stream_paths self query sessionId Hinit)
      as [(err & ->) | [(e & He & ->) | (choice & content & o & Hc & Hid & ->)]].
    + cbn. repeat split; auto. discriminate.
    + cbn. repeat split; auto. discriminate.
    + destruct o as [e|]; [destruct (is_Exception e) |]; cbn; repeat split; eauto.
  - unfold DirectorAgent.stream. rewrite Hinit. cbn. repeat split; auto. discriminate.
Qed.

(** X8. The stream ends on a terminal update, or is cut short. For an
    initialized agent whose stream returns, the updates are the working
    update, then at most one error update that requires input, then one last
    update that is not a working one. The stream is left by an exception
    only when the selection or the transport raises what is no [Exception]
    (a cancellation), and then the working update is all it yielded. *)
Theorem stream_ends_on_terminal_update (self : DirectorAgent.t)
    (query sessionId : string) :
  DirectorAgent.initialized self = true ->
  match snd (DirectorAgent.stream self query sessionId) with
  | inr _ =>
      exists (errors : list update) (last : update),
        yields (fst (DirectorAgent.stream self query sessionId))
        = (DirectorAgent.processing_update :: errors ++ [last])%list
        /\ length errors <= 1
        /\ Forall (fun u => spec_task_state u = input_required) errors
        /\ spec_task_state last <> working
  | inl e =>
      is_Exception e = false
      /\ yields (fst (DirectorAgent.stream self query sessionId))
         = [DirectorAgent.processing_update]
  end.
Proof.
  intros Hinit.
  destruct (DirectorFacts.stream_paths self query sessionId Hinit)
    as [(err & ->) | [(e & He & ->) | (choice & content & o & Hc & Hid & ->)]].
  - cbn [snd fst yields].
    exists [], {| is_task_complete := false; require_user_input := true;
                  content := "Error processing request: " ++ err |}.
    repeat split; auto. discriminate.
  - cbn [snd fst yields]. now split.
  - destruct o as [e|]; [destruct (is_Exception e) eqn:He |]; cbn [snd fst yields].
    + exists [DirectorAgent.error_update e], (final_update choice content).
      repeat split; auto. discriminate.
    + now split.
    + exists [], (final_update choice content). repeat split; auto. discriminate.
Qed.

(** A transport that is cancelled after a chunk with a text. *)
Lemma stream_ends_on_terminal_update_witness :
  is_Exception (PyExn "CancelledError" "") = false
  /\ yields (fst (DirectorAgent.stream
                    (director (inr widgets_choice)
                       (SendStreams [ [("result", VDict (result_with [text_part "lost"]))] ]
                                    (StreamRaises (PyExn "CancelledError" ""))))
                    "q" "s"))
     = [DirectorAgent.processing_update].
Proof.
  apply (stream_ends_on_terminal_update
           (director (inr widgets_choice)
              (SendStreams [ [("result", VDict (result_with [text_part "lost"]))] ]
                           (StreamRaises (PyExn "CancelledError" ""))))
           "q" "s").
  reflexivity.
Defined.

(** X9. An agent that is not initialized asks for nothing: its stream yields the
    single update "Agent initialization failed." that requires input, calls
    neither the selection nor the transport, and the executor enqueues that
    one terminal event. *)
Theorem uninitialized_agent_fails_closed (new_task : Message -> Task)
    (self : DirectorAgent.t) (query : string) (task : Task) (m : option Message) :
  DirectorAgent.initialized self = false ->
  DirectorAgent.stream self query (context_id task)
  = ([Yield init_failed_update], inr tt)
  /\ DirectorAgentExecutor.execute new_task self
       {| user_input := query; current_task := Some task; request_message := m |}
     = ([status_event input_required true task "Agent initialization failed."], inr tt).
Proof.
  intros Hinit.
  assert (DirectorAgent.stream self query (context_id task)
          = ([Yield init_failed_update], inr tt)) as Hs.
  { unfold DirectorAgent.stream. now rewrite Hinit. }
  split; [exact Hs |].
  rewrite ExecutorFacts.execute_with_task.
  unfold agent_stream, Agent_DirectorAgent. now rewrite Hs.
Qed.

Lemma uninitialized_agent_fails_closed_witness :
  DirectorAgentExecutor.execute new_task1
    {| DirectorAgent.client := fun _ => inr widgets_choice;
       DirectorAgent.a2a_clients_widgets := fun _ _ => SendStreams [] EndOfStream;
       DirectorAgent.initialized := false;
       DirectorAgent.oauth_token_ctx := None |}
    {| user_input := "foo"; current_task := Some task1; request_message := None |}
  = ([status_event input_required true task1 "Agent initialization failed."], inr tt).
Proof.
  apply (uninitialized_agent_fails_closed new_task1
           {| DirectorAgent.client := fun _ => inr widgets_choice;
              DirectorAgent.a2a_clients_widgets := fun _ _ => SendStreams [] EndOfStream;
              DirectorAgent.initialized := false;
              DirectorAgent.oauth_token_ctx := None |}
           "foo" task1 None).
  reflexivity.
Defined.

(** ** The executors *)

Module CountFacts.

Lemma events_of_length (task : Task) (u : update) :
  length (events_of task u)
  = 1 + (match spec_task_state u with completed => 1 | _ => 0 end).
Proof. destruct u as [[] [] s]; reflexivity. Qed.

Lemma events_of_final (task : Task) (u : update) :
  length (filter is_final (events_of task u))
  = match spec_task_state u with working => 0 | _ => 1 end.
Proof. destruct u as [[] [] s]; reflexivity. Qed.

Lemma events_of_artifact (task : Task) (u : update) :
  length (filter is_artifact_event (events_of task u))
  = match spec_task_state u with completed => 1 | _ => 0 end.
Proof. destruct u as [[] [] s]; reflexivity. Qed.

Lemma count_state_cons (s : TaskState) (u : update) (us : list update) :
  count_state s (u :: us)
  = (match spec_task_state u, s with
     | working, working | input_required, input_required
     | completed, completed => 1
     | _, _ => 0
     end) + count_state s us.
Proof.
  unfold count_state. cbn [filter].
  destruct (spec_task_state u), s; reflexivity.
Qed.

End CountFacts.

Lemma executors_agree_lemma {A : Type} `{Agent A} (new_task : Message -> Task)
    (agent : A) (context : RequestContext) :
  MCPAgentExecutor.execute new_task agent context
  = DirectorAgentExecutor.execute new_task agent context.
Proof.
  unfold MCPAgentExecutor.execute, DirectorAgentExecutor.execute.
  destruct (current_task context) as [task|]; [| destruct (request_message context)];
    try reflexivity.
Qed.

(** X10. A request without a task gets one, if its message is accepted.
    With a message and no current task: when [new_task] makes a task of the
    message, the executor first enqueues that task and then does what it does
    for a request that has it; when [new_task] raises, the executor is left
    by that exception before anything is enqueued. With neither a task nor a
    message its assertion fails before anything is enqueued. *)
Theorem execute_creates_missing_task {A : Type} `{Agent A}
    (new_task : Message -> result Task) (agent : A) (query : string) (m : Message) :
  match new_task m with
  | inr task =>
      DirectorAgentExecutor.execute new_task agent
        {| user_input := query; current_task := None; request_message := Some m |}
      = (TaskEvent task
         :: fst (DirectorAgentExecutor.execute new_task agent
                   {| user_input := query; current_task := Some task;
                      request_message := Some m |}),
         snd (DirectorAgentExecutor.execute new_task agent
                {| user_input := query; current_task := Some task;
                   request_message := Some m |}))
  | inl e =>
      DirectorAgentExecutor.execute new_task agent
        {| user_input := query; current_task := None; request_message := Some m |}
      = ([], inl e)
  end
  /\ DirectorAgentExecutor.execute new_task agent
       {| user_input := query; current_task := None; request_message := None |}
     = ([], inl (PyExn "AssertionError" "")).
Proof.
  split; [| reflexivity].
  destruct (new_task m) as [e | task] eqn:Hnew.
  - unfold DirectorAgentExecutor.execute. cbn. unfold make_task, TaskFactory_raising.
    now rewrite Hnew.
  - rewrite ExecutorFacts.execute_with_task.
    unfold DirectorAgentExecutor.execute. cbn. unfold make_task, TaskFactory_raising.
    rewrite Hnew. cbn.
    destruct (agent_stream agent query (context_id task)) as [tr outcome].
    rewrite ExecutorFacts.for_each_handle_item. cbn. rewrite app_nil_r.
    destruct outcome as [e | []]; reflexivity.
Qed.

(** X11. The events count the updates. For any agent, the executor enqueues one
    event for each update and one more for each completion; its terminal
    events are as many as the updates that are not working updates, and its
    artifact events as many as the completions. *)
Theorem events_count_updates {A : Type} `{Agent A} (new_task : Message -> Task)
    (agent : A) (query : string) (task : Task) (m : option Message) :
  let updates := yields (fst (agent_stream agent query (context_id task))) in
  let events := enqueued new_task agent query task m in
  length events = length updates + count_state completed updates
  /\ length (filter is_final events)
     = count_state input_required updates + count_state completed updates
  /\ length (filter is_artifact_event events) = count_state completed updates.
Proof.
  intros updates events. unfold events, enqueued.
  rewrite ExecutorFacts.execute_with_task. cbn [fst]. fold updates.
  induction updates as [|u us (IH1 & IH2 & IH3)]; [repeat split |].
  cbn [flat_map]. rewrite !filter_app, !length_app, !CountFacts.count_state_cons.
  rewrite CountFacts.events_of_length, CountFacts.events_of_final,
    CountFacts.events_of_artifact, IH1, IH2, IH3.
  cbn [length].
  destruct (spec_task_state u); repeat split; cbn; rewrite <- ?plus_n_Sm; auto.
Qed.

(** X12. An exception of the agent leaves through the executor. When the
    generator of the agent raises after some updates, the executor has
    enqueued the events of those updates and raises the same exception. *)
Theorem execute_propagates_agent_exception {A : Type} `{Agent A}
    (new_task : Message -> Task) (agent : A) (query : string) (task : Task)
    (m : option Message) (trace : list action) (e : exn) :
  agent_stream agent query (context_id task) = (trace, inl e) ->
  DirectorAgentExecutor.execute new_task agent
    {| user_input := query; current_task := Some task; request_message := m |}
  = (flat_map (events_of task) (yields trace), inl e).
Proof.
  intros Hs. rewrite ExecutorFacts.execute_with_task. now rewrite Hs.
Qed.

Lemma execute_propagates_agent_exception_witness :
  DirectorAgentExecutor.execute new_task1
    {| yielded := [ {| is_task_complete := false; require_user_input := false;
                       content := "working" |} ];
       failure := PyExn "RuntimeError" "boom" |}
    {| user_input := "q"; current_task := Some task1; request_message := None |}
  = ([status_event working false task1 "working"], inl (PyExn "RuntimeError" "boom")).
Proof.
  apply (execute_propagates_agent_exception new_task1
           {| yielded := [ {| is_task_complete := false; require_user_input := false;
                              content := "working" |} ];
              failure := PyExn "RuntimeError" "boom" |}
           "q" task1 None
           [Yield {| is_task_complete := false; require_user_input := false;
                     content := "working" |}]
           (PyExn "RuntimeError" "boom")).
  reflexivity.
Defined.

(** X13. The two executors are one. For every agent and request the widgets
    executor enqueues the events the director executor enqueues and ends as
    it ends, so what holds of one holds of the other. *)
Theorem executors_agree {A : Type} `{Agent A} (new_task : Message -> Task)
    (agent : A) (context : RequestContext) :
  MCPAgentExecutor.execute new_task agent context
  = DirectorAgentExecutor.execute new_task agent context.
Proof. apply executors_agree_lemma. Qed.

(** ** The widgets agent *)

Module WidgetsFacts.
Import WidgetsMCPAgent.

Lemma split_not_empty (is_T : exn -> bool) (r : raised) :
  split is_T r <> (None, None).
Proof.
  induction r as [e | msg x IH xs].
  - cbn. destruct (is_T e); discriminate.
  - cbn [split map]. destruct (split is_T x) as [[m|] [n|]];
      cbn; try discriminate. now elim IH.
Qed.

Lemma except_star_some (is_T : exn -> bool) (r : raised) :
  except_star is_T (Some r) <> (None, None).
Proof.
  destruct r as [e | msg x xs].
  - cbn. destruct (is_T e); discriminate.
  - apply split_not_empty.
Qed.

(** What the clause [except* Exception] leaves holds no [Exception]. *)
Lemma split_rest_no_Exception : forall r : raised,
  match snd (split is_Exception r) with
  | Some x => no_Exception_in x = true
  | None => True
  end.
Proof.
  fix IH 1. intros [e | msg y ys].
  - cbn [split]. destruct (is_Exception e) eqn:He; cbn; [exact I | now rewrite He].
  - cbn [split snd].
    assert (forallb no_Exception_in
              (somes (map snd (split is_Exception y :: map (split is_Exception) ys)))
            = true) as Hall.
    { unfold somes. cbn [map flat_map]. rewrite forallb_app. apply andb_true_iff. split.
      - specialize (IH y). destruct (snd (split is_Exception y)); cbn;
          [now rewrite IH | reflexivity].
      - induction ys as [|z zs IHzs]; [reflexivity |].
        cbn [map flat_map]. rewrite forallb_app, IHzs, andb_true_r.
        specialize (IH z). destruct (snd (split is_Exception z)); cbn;
          [now rewrite IH | reflexivity]. }
    destruct (somes (map snd (split is_Exception y :: map (split is_Exception) ys)))
      as [|z zs]; cbn [regroup]; [exact I | exact Hall].
Qed.

Lemma except_star_leftover (unhandled : option raised) (x : raised) :
  snd (except_star is_Exception unhandled) = Some x -> no_Exception_in x = true.
Proof.
  destruct unhandled as [[e | msg y ys]|]; cbn [except_star].
  - destruct (is_Exception e) eqn:He; cbn; [discriminate |].
    intros [= <-]. cbn. now rewrite He.
  - pose proof (split_rest_no_Exception (Group msg y ys)) as H.
    destruct (snd (split is_Exception (Group msg y ys))); [| discriminate].
    now intros [= <-].
  - discriminate.
Qed.

(** A [ConnectError] is an [Exception]. *)
Lemma ConnectError_is_Exception (e : exn) :
  is_ConnectError e = true -> is_Exception e = true.
Proof.
  destruct e as [cls msg]. cbn [is_ConnectError]. intros H.
  apply String.eqb_eq in H. now subst cls.
Qed.

(** The stream of an initialized agent, from what its [try] body does. *)
Lemma stream_initialized (self : t) (query sessionId : string) :
  initialized self = true ->
  stream self query sessionId
  = (let '(actions, r) := try_body self query in
     let '(connect_errors, rest) := except_star is_ConnectError r in
     let '(other_errors, leftover) := except_star is_Exception rest in
     ((McpYield DirectorAgent.processing_update
       :: actions
       ++ match connect_errors with
          | Some exc => [McpYield (complete_update
                           ("Error connecting to MCP server: "
                            ++ raised_str (first_exception exc)))]
          | None => []
          end
       ++ match other_errors with
          | Some exc => [McpYield (complete_update
                           ("Error processing request: "
                            ++ raised_str (first_exception exc)))]
          | None => []
          end)%list,
      leftover)).
Proof.
  intros Hinit. unfold stream. now rewrite Hinit.
Qed.

Lemma updates_app (xs ys : list mcp_action) :
  updates (xs ++ ys) = (updates xs ++ updates ys)%list.
Proof.
  induction xs as [|[u| | | |] xs IH]; cbn; now rewrite ?IH.
Qed.

(** The body of the [try] yields once when it ends normally and never when
    it raises. *)
Lemma try_body_updates (self : t) (query : string) :
  match snd (try_body self query) with
  | None => exists u, updates (fst (try_body self query)) = [u] /\ is_complete u = true
  | Some _ => updates (fst (try_body self query)) = []
  end.
Proof.
  unfold try_body. fold (mcp_headers self).
  destruct (open_session self (mcp_headers self)); [reflexivity |].
  unfold session_body.
  destruct (_discover_mcp_tools self) as [r | tools].
  { destruct (close_session self (Some r)); reflexivity. }
  destruct (select_tool self tools query) as [r | tool_call].
  { destruct (close_session self (Some r)); reflexivity. }
  destruct (call_tool self (tool_name tool_call) (args tool_call)) as [r | cr].
  - destruct (is_Exception_instance r);
      [destruct (close_session self None) | destruct (close_session self (Some r))];
      reflexivity.
  - destruct (close_session self None); [reflexivity |].
    unfold answer. destruct (result_content cr) as [|[text|] more]; try reflexivity.
    destruct (isError cr); cbn; eexists; split; reflexivity.
Qed.

Lemma stream_actions (self : t) (query sessionId : string) :
  initialized self = true ->
  exists tail : list mcp_action,
    fst (stream self query sessionId)
    = (McpYield DirectorAgent.processing_update :: fst (try_body self query) ++ tail)%list.
Proof.
  intros Hinit. rewrite (stream_initialized self query sessionId Hinit).
  destruct (try_body self query) as [actions r].
  destruct (except_star is_ConnectError r) as [c rest].
  destruct (except_star is_Exception rest) as [o leftover].
  eexists. reflexivity.
Qed.

Lemma try_body_calls (self : t) (query : string) (tools : list Tool) :
  open_session self (mcp_headers self) = None ->
  _discover_mcp_tools self = inr tools ->
  exists rest : list mcp_action,
    fst (try_body self query)
    = OpenSession (mcp_headers self) :: ListTools :: SelectTool tools query :: rest.
Proof.
  intros Hopen Htools. unfold try_body. fold (mcp_headers self). rewrite Hopen.
  unfold session_body. rewrite Htools.
  destruct (select_tool self tools query) as [r | tool_call];
    [| destruct (call_tool self _ _) as [r | cr];
       [destruct (is_Exception_instance r) |]];
    (destruct (close_session self _) as [r2|];
     [| try destruct (answer _) as [ys ra]]);
    eexists; reflexivity.
Qed.

End WidgetsFacts.

(** X14. The widgets agent answers and never asks. For an initialized
    agent the updates are the working update and then at most two
    completions ([is_task_complete] set, [require_user_input] not set),
    whatever the session and the tool do. When nothing is raised again after
    the [except*] clauses there is at least one completion; and what is
    raised again holds no [Exception]: only what is no [Exception] (a
    cancellation) reaches the consumer. *)
Theorem widgets_stream_always_completes (self : WidgetsMCPAgent.t)
    (query sessionId : string) :
  WidgetsMCPAgent.initialized self = true ->
  (exists answers : list update,
      WidgetsMCPAgent.updates (fst (WidgetsMCPAgent.stream self query sessionId))
      = DirectorAgent.processing_update :: answers
      /\ length answers <= 2
      /\ forallb is_complete answers = true
      /\ (snd (WidgetsMCPAgent.stream self query sessionId) = None ->
          1 <= length answers))
  /\ (forall r : raised,
         snd (WidgetsMCPAgent.stream self query sessionId) = Some r ->
         no_Exception_in r = true).
Proof.
  intros Hinit. rewrite (WidgetsFacts.stream_initialized self query sessionId Hinit).
  pose proof (WidgetsFacts.try_body_updates self query) as Hbody.
  destruct (WidgetsMCPAgent.try_body self query) as [actions r]. cbn [fst snd] in Hbody.
  destruct r as [r|].
  - pose proof (WidgetsFacts.except_star_some is_ConnectError r) as Hsome.
    destruct (except_star is_ConnectError (Some r)) as [c rest].
    pose proof (WidgetsFacts.except_star_leftover rest) as Hleft.
    assert (c = None -> rest <> None) as Hrest.
    { intros -> ->. now elim Hsome. }
    assert (c = None -> fst (except_star is_Exception rest) <> None
                        \/ snd (except_star is_Exception rest) <> None) as Hnext.
    { intros Hc. destruct rest as [x|]; [| now elim (Hrest Hc)].
      pose proof (WidgetsFacts.except_star_some is_Exception x) as Hx.
      destruct (except_star is_Exception (Some x)) as [[o|] [l|]]; cbn;
        try (left; discriminate); try (right; discriminate). now elim Hx. }
    destruct (except_star is_Exception rest) as [o leftover]. cbn [fst snd] in *.
    split; [| intros x Hx; now apply Hleft].
    destruct c as [c|], o as [o|];
      cbn [WidgetsMCPAgent.updates]; rewrite ?WidgetsFacts.updates_app, Hbody; cbn;
      eexists; repeat split; cbn [length]; try (repeat constructor; fail).
    intros ->. destruct (Hnext eq_refl) as [H | H]; now elim H.
  - destruct Hbody as (u & Hu & Hc). cbn [except_star fst snd WidgetsMCPAgent.updates].
    split; [| discriminate].
    rewrite ?WidgetsFacts.updates_app, Hu. cbn.
    eexists. repeat split; cbn [length forallb]; try (repeat constructor; fail).
    now rewrite Hc.
Qed.

(** A session whose opening is cancelled: no completion, and the
    cancellation is raised again. *)
Lemma widgets_stream_always_completes_witness :
  (exists answers : list update,
      WidgetsMCPAgent.updates
        (fst (WidgetsMCPAgent.stream (unreachable_agent (Leaf (PyExn "CancelledError" "")))
                "q" "s"))
      = DirectorAgent.processing_update :: answers
      /\ length answers <= 2
      /\ forallb is_complete answers = true
      /\ (snd (WidgetsMCPAgent.stream (unreachable_agent (Leaf (PyExn "CancelledError" "")))
                 "q" "s") = None ->
          1 <= length answers))
  /\ (forall r : raised,
         snd (WidgetsMCPAgent.stream (unreachable_agent (Leaf (PyExn "CancelledError" "")))
                "q" "s") = Some r ->
         no_Exception_in r = true).
Proof.
  apply (widgets_stream_always_completes
           (unreachable_agent (Leaf (PyExn "CancelledError" ""))) "q" "s").
  reflexivity.
Defined.

(** X15. The answer of a tool. When the session opens and closes without an
    exception, the listing returns (the tools, or none after an [Exception])
    and the tool call returns a result whose first content item is a text,
    the stream lists the tools, selects one and calls it, and yields the
    working update and one completion: the text, or "Tool call failed: " and
    the text when the result is an error. The executor enqueues the working
    status, the artifact and the completed status. *)
Theorem widgets_tool_answer (new_task : Message -> Task) (self : WidgetsMCPAgent.t)
    (query : string) (task : Task) (m : option Message)
    (tools : list WidgetsMCPAgent.Tool)
    (tool_call : WidgetsMCPAgent.ToolCall)
    (call_result : WidgetsMCPAgent.CallToolResult) (text : string)
    (more : list WidgetsMCPAgent.ContentBlock) :
  WidgetsMCPAgent.initialized self = true ->
  WidgetsMCPAgent.open_session self (mcp_headers self) = None ->
  WidgetsMCPAgent._discover_mcp_tools self = inr tools ->
  WidgetsMCPAgent.select_tool self tools query = inr tool_call ->
  WidgetsMCPAgent.call_tool self (WidgetsMCPAgent.tool_name tool_call)
    (WidgetsMCPAgent.args tool_call) = inr call_result ->
  WidgetsMCPAgent.close_session self None = None ->
  WidgetsMCPAgent.result_content call_result = WidgetsMCPAgent.TextContent text :: more ->
  let content := if WidgetsMCPAgent.isError call_result
                 then "Tool call failed: " ++ text else text in
  WidgetsMCPAgent.stream self query (context_id task)
  = ([ WidgetsMCPAgent.McpYield DirectorAgent.processing_update;
       WidgetsMCPAgent.OpenSession (mcp_headers self);
       WidgetsMCPAgent.ListTools;
       WidgetsMCPAgent.SelectTool tools query;
       WidgetsMCPAgent.CallTool (WidgetsMCPAgent.tool_name tool_call)
         (WidgetsMCPAgent.args tool_call);
       WidgetsMCPAgent.McpYield (WidgetsMCPAgent.complete_update content) ], None)
  /\ MCPAgentExecutor.execute new_task self
       {| user_input := query; current_task := Some task; request_message := m |}
     = ([ status_event working false task "Processing request...";
          artifact_event task content;
          completed_event task ], inr tt).
Proof.
  intros Hinit Hopen Htools Hsel Hcall Hclose Hcontent content.
  assert (WidgetsMCPAgent.try_body self query
          = ([ WidgetsMCPAgent.OpenSession (mcp_headers self);
               WidgetsMCPAgent.ListTools;
               WidgetsMCPAgent.SelectTool tools query;
               WidgetsMCPAgent.CallTool (WidgetsMCPAgent.tool_name tool_call)
                 (WidgetsMCPAgent.args tool_call);
               WidgetsMCPAgent.McpYield (WidgetsMCPAgent.complete_update content) ], None))
    as Hbody.
  { unfold WidgetsMCPAgent.try_body. fold (mcp_headers self). rewrite Hopen.
    unfold WidgetsMCPAgent.session_body. rewrite Htools, Hsel, Hcall, Hclose.
    unfold WidgetsMCPAgent.answer. rewrite Hcontent. unfold content.
    destruct (WidgetsMCPAgent.isError call_result); reflexivity. }
  assert (WidgetsMCPAgent.stream self query (context_id task)
          = ([ WidgetsMCPAgent.McpYield DirectorAgent.processing_update;
               WidgetsMCPAgent.OpenSession (mcp_headers self);
               WidgetsMCPAgent.ListTools;
               WidgetsMCPAgent.SelectTool tools query;
               WidgetsMCPAgent.CallTool (WidgetsMCPAgent.tool_name tool_call)
                 (WidgetsMCPAgent.args tool_call);
               WidgetsMCPAgent.McpYield (WidgetsMCPAgent.complete_update content) ], None))
    as Hstream.
  { rewrite (WidgetsFacts.stream_initialized self query _ Hinit), Hbody. reflexivity. }
  split; [exact Hstream |].
  rewrite executors_agree_lemma, ExecutorFacts.execute_with_task.
  unfold agent_stream, Agent_WidgetsMCPAgent. rewrite Hstream. reflexivity.
Qed.

(** The tests' failing tool: an error result with the text "bad widget". *)
Lemma widgets_tool_answer_witness :
  MCPAgentExecutor.execute new_task1
    (widgets_agent (inr []) (inr get_widget)
       (inr {| WidgetsMCPAgent.result_content := [WidgetsMCPAgent.TextContent "bad widget"];
               WidgetsMCPAgent.isError := true |}))
    {| user_input := "zap widget 1"; current_task := Some task1; request_message := None |}
  = ([ status_event working false task1 "Processing request...";
       artifact_event task1 "Tool call failed: bad widget";
       completed_event task1 ], inr tt).
Proof.
  apply (widgets_tool_answer new_task1
           (widgets_agent (inr []) (inr get_widget)
              (inr {| WidgetsMCPAgent.result_content :=
                        [WidgetsMCPAgent.TextContent "bad widget"];
                      WidgetsMCPAgent.isError := true |}))
           "zap widget 1" task1 None [] get_widget
           {| WidgetsMCPAgent.result_content := [WidgetsMCPAgent.TextContent "bad widget"];
              WidgetsMCPAgent.isError := true |}
           "bad widget" []);
    reflexivity.
Defined.

(** X16. A tool call that raises loses its message. An [Exception] of
    [call_tool] is logged and dropped; when the session then closes without
    an exception, the assertion on the missing result fails with an empty
    message, and the one completion of the stream is
    "Error processing request: " with nothing after it, whatever the
    exception said. *)
Theorem widgets_call_failure_loses_message (self : WidgetsMCPAgent.t)
    (query sessionId : string) (tools : list WidgetsMCPAgent.Tool)
    (tool_call : WidgetsMCPAgent.ToolCall) (r : raised) :
  WidgetsMCPAgent.initialized self = true ->
  WidgetsMCPAgent.open_session self (mcp_headers self) = None ->
  WidgetsMCPAgent._discover_mcp_tools self = inr tools ->
  WidgetsMCPAgent.select_tool self tools query = inr tool_call ->
  WidgetsMCPAgent.call_tool self (WidgetsMCPAgent.tool_name tool_call)
    (WidgetsMCPAgent.args tool_call) = inl r ->
  is_Exception_instance r = true ->
  WidgetsMCPAgent.close_session self None = None ->
  WidgetsMCPAgent.updates (fst (WidgetsMCPAgent.stream self query sessionId))
  = [ DirectorAgent.processing_update;
      {| is_task_complete := true; require_user_input := false;
         content := "Error processing request: " |} ].
Proof.
  intros Hinit Hopen Htools Hsel Hcall Hr Hclose.
  rewrite (WidgetsFacts.stream_initialized self query _ Hinit).
  unfold WidgetsMCPAgent.try_body. fold (mcp_headers self). rewrite Hopen.
  unfold WidgetsMCPAgent.session_body. rewrite Htools, Hsel, Hcall, Hr, Hclose.
  reflexivity.
Qed.

Lemma widgets_call_failure_loses_message_witness :
  WidgetsMCPAgent.updates
    (fst (WidgetsMCPAgent.stream
            (widgets_agent (inr []) (inr get_widget)
               (inl (Leaf (PyExn "McpError" "widget 1 is on fire"))))
            "zap widget 1" "s"))
  = [ DirectorAgent.processing_update;
      {| is_task_complete := true; require_user_input := false;
         content := "Error processing request: " |} ].
Proof.
  apply (widgets_call_failure_loses_message
           (widgets_agent (inr []) (inr get_widget)
              (inl (Leaf (PyExn "McpError" "widget 1 is on fire"))))
           "zap widget 1" "s" [] get_widget
           (Leaf (PyExn "McpError" "widget 1 is on fire")));
    reflexivity.
Defined.

(** X17. An unreachable server. When setting up the session raises a
    [ConnectError], alone or as the only member of an exception group, the
    stream makes no call of a tool and yields one completion,
    "Error connecting to MCP server: " and the text of the error. *)
Theorem widgets_connect_error (self : WidgetsMCPAgent.t) (query sessionId : string)
    (r : raised) (e : exn) :
  WidgetsMCPAgent.initialized self = true ->
  WidgetsMCPAgent.open_session self (mcp_headers self) = Some r ->
  (r = Leaf e \/ exists msg : string, r = Group msg (Leaf e) []) ->
  is_ConnectError e = true ->
  fst (WidgetsMCPAgent.stream self query sessionId)
  = [ WidgetsMCPAgent.McpYield DirectorAgent.processing_update;
      WidgetsMCPAgent.OpenSession (mcp_headers self);
      WidgetsMCPAgent.McpYield
        {| is_task_complete := true; require_user_input := false;
           content := "Error connecting to MCP server: " ++ exn_str e |} ].
Proof.
  intros Hinit Hopen Hr He.
  rewrite (WidgetsFacts.stream_initialized self query _ Hinit).
  unfold WidgetsMCPAgent.try_body. fold (mcp_headers self). rewrite Hopen.
  destruct Hr as [-> | (msg & ->)]; cbn -[is_Exception]; rewrite He; reflexivity.
Qed.

Lemma widgets_connect_error_witness :
  fst (WidgetsMCPAgent.stream
         (unreachable_agent
            (Group "unhandled errors in a TaskGroup"
               (Leaf (PyExn "ConnectError" "All connection attempts failed")) []))
         "q" "s")
  = [ WidgetsMCPAgent.McpYield DirectorAgent.processing_update;
      WidgetsMCPAgent.OpenSession [];
      WidgetsMCPAgent.McpYield
        {| is_task_complete := true; require_user_input := false;
           content := "Error connecting to MCP server: All connection attempts failed" |} ].
Proof.
  apply (widgets_connect_error
           (unreachable_agent
              (Group "unhandled errors in a TaskGroup"
                 (Leaf (PyExn "ConnectError" "All connection attempts failed")) []))
           "q" "s"
           (Group "unhandled errors in a TaskGroup"
              (Leaf (PyExn "ConnectError" "All connection attempts failed")) [])
           (PyExn "ConnectError" "All connection attempts failed"));
    try reflexivity.
  right. now exists "unhandled errors in a TaskGroup".
Defined.

(** X18. Both clauses run on a mixed group. When the [try] body raises a
    group of a [ConnectError] and an [Exception] of another class, the stream
    yields two completions: the connection error, then
    "Error processing request: " with the other exception. *)
Theorem widgets_mixed_group_completes_twice (self : WidgetsMCPAgent.t)
    (query sessionId msg : string) (e1 e2 : exn) :
  WidgetsMCPAgent.initialized self = true ->
  snd (WidgetsMCPAgent.try_body self query) = Some (Group msg (Leaf e1) [Leaf e2]) ->
  is_ConnectError e1 = true ->
  is_ConnectError e2 = false ->
  is_Exception e2 = true ->
  WidgetsMCPAgent.updates (fst (WidgetsMCPAgent.stream self query sessionId))
  = [ DirectorAgent.processing_update;
      {| is_task_complete := true; require_user_input := false;
         content := "Error connecting to MCP server: " ++ exn_str e1 |};
      {| is_task_complete := true; require_user_input := false;
         content := "Error processing request: " ++ exn_str e2 |} ].
Proof.
  intros Hinit Hr H1 H2 H3.
  rewrite (WidgetsFacts.stream_initialized self query _ Hinit).
  pose proof (WidgetsFacts.try_body_updates self query) as Hbody.
  destruct (WidgetsMCPAgent.try_body self query) as [actions r].
  cbn [snd] in Hr. subst r. cbn [fst snd] in Hbody.
  cbn [except_star split map fst snd]. rewrite H1, H2.
  cbn [fst snd somes flat_map app regroup map except_star split]. rewrite H3.
  cbn [fst snd somes flat_map app regroup map WidgetsMCPAgent.updates].
  rewrite WidgetsFacts.updates_app, Hbody. reflexivity.
Qed.

Lemma widgets_mixed_group_completes_twice_witness :
  WidgetsMCPAgent.updates
    (fst (WidgetsMCPAgent.stream
            (unreachable_agent
               (Group "unhandled errors in a TaskGroup"
                  (Leaf (PyExn "ConnectError" "refused"))
                  [Leaf (PyExn "ValueError" "bad frame")]))
            "q" "s"))
  = [ DirectorAgent.processing_update;
      {| is_task_complete := true; require_user_input := false;
         content := "Error connecting to MCP server: refused" |};
      {| is_task_complete := true; require_user_input := false;
         content := "Error processing request: bad frame" |} ].
Proof.
  apply (widgets_mixed_group_completes_twice
           (unreachable_agent
              (Group "unhandled errors in a TaskGroup"
                 (Leaf (PyExn "ConnectError" "refused"))
                 [Leaf (PyExn "ValueError" "bad frame")]))
           "q" "s" "unhandled errors in a TaskGroup"
           (PyExn "ConnectError" "refused") (PyExn "ValueError" "bad frame"));
    reflexivity.
Defined.

(** X19. A failed listing is an empty listing. When [list_tools] raises an
    [Exception], it is dropped and the tool is selected among no tools. *)
Theorem widgets_discovery_failure_selects_among_none (self : WidgetsMCPAgent.t)
    (query sessionId : string) (r : raised) :
  WidgetsMCPAgent.initialized self = true ->
  WidgetsMCPAgent.open_session self (mcp_headers self) = None ->
  WidgetsMCPAgent.list_tools self = inl r ->
  is_Exception_instance r = true ->
  exists rest : list WidgetsMCPAgent.mcp_action,
    fst (WidgetsMCPAgent.stream self query sessionId)
    = WidgetsMCPAgent.McpYield DirectorAgent.processing_update
      :: WidgetsMCPAgent.OpenSession (mcp_headers self)
      :: WidgetsMCPAgent.ListTools
      :: WidgetsMCPAgent.SelectTool [] query
      :: rest.
Proof.
  intros Hinit Hopen Hlist Hr.
  destruct (WidgetsFacts.stream_actions self query sessionId Hinit) as [tail ->].
  assert (WidgetsMCPAgent._discover_mcp_tools self = inr []) as Htools.
  { unfold WidgetsMCPAgent._discover_mcp_tools. now rewrite Hlist, Hr. }
  destruct (WidgetsFacts.try_body_calls self query [] Hopen Htools) as [rest ->].
  eexists. reflexivity.
Qed.

Lemma widgets_discovery_failure_selects_among_none_witness :
  exists rest : list WidgetsMCPAgent.mcp_action,
    fst (WidgetsMCPAgent.stream
           (widgets_agent (inl (Leaf (PyExn "McpError" "no tools")))
              (inr get_widget)
              (inr {| WidgetsMCPAgent.result_content := [WidgetsMCPAgent.TextContent "ok"];
                      WidgetsMCPAgent.isError := false |}))
           "q" "s")
    = WidgetsMCPAgent.McpYield DirectorAgent.processing_update
      :: WidgetsMCPAgent.OpenSession []
      :: WidgetsMCPAgent.ListTools
      :: WidgetsMCPAgent.SelectTool [] "q"
      :: rest.
Proof.
  apply (widgets_discovery_failure_selects_among_none
           (widgets_agent (inl (Leaf (PyExn "McpError" "no tools")))
              (inr get_widget)
              (inr {| WidgetsMCPAgent.result_content := [WidgetsMCPAgent.TextContent "ok"];
                      WidgetsMCPAgent.isError := false |}))
           "q" "s" (Leaf (PyExn "McpError" "no tools")));
    reflexivity.
Defined.

(** ** The web front end *)

Module WebFacts.

Lemma scan_parts_same (content : value) (parts : list value) :
  Web.scan_parts content parts = DirectorAgent.scan_parts content parts.
Proof.
  induction parts as [|p parts IH]; [reflexivity |].
  cbn [Web.scan_parts DirectorAgent.scan_parts]. cbn [bind Monad_result].
  destruct (py_get p "kind") as [e | kind]; [reflexivity |].
  destruct (eq_str kind "text"); cbn [bind ret Monad_result].
  - destruct (py_get p "text") as [e | text]; [reflexivity |].
    destruct (truthy text); [reflexivity | exact IH].
  - exact IH.
Qed.

Lemma truthy_serialization (d : dict) : truthy (VStr (py_str (VDict d))) = true.
Proof. reflexivity. Qed.

(** The two extractions on one chunk. *)
Lemma chunk_message_process_chunk (chunk_dict : dict) :
  Web.chunk_message chunk_dict
  = match DirectorAgent.process_chunk (VStr "") chunk_dict with
    | inl e => inl e
    | inr content => inr (if truthy content then Some content else None)
    end.
Proof.
  unfold Web.chunk_message, DirectorAgent.process_chunk.
  cbn [bind ret Monad_result].
  destruct (truthy (dict_get chunk_dict "result")); [| reflexivity].
  destruct (py_get (dict_get chunk_dict "result") "lastChunk") as [e | lc]; [reflexivity |].
  destruct (truthy lc); [| reflexivity].
  destruct (py_get (dict_get chunk_dict "result") "artifact") as [e | artifact];
    [reflexivity |].
  destruct (truthy artifact).
  - destruct (py_get_default artifact "parts" (VList [])) as [e | parts]; [reflexivity |].
    destruct (py_iter parts) as [e | its]; [reflexivity |].
    rewrite scan_parts_same.
    destruct (DirectorAgent.scan_parts (VStr "") its) as [e | c]; [reflexivity |].
    destruct (truthy c) eqn:Hc; cbn [negb].
    + now rewrite Hc.
    + now rewrite truthy_serialization.
  - reflexivity.
Qed.

(** One chunk of the payload type, with a template that renders. *)
Lemma send_chunk_class (render : value -> string) (chunk_dict : dict) :
  is_classified chunk_dict = true ->
  Web.send_chunk (fun v => inr (render v)) chunk_dict
  = (class_message render chunk_dict, inr tt).
Proof.
  unfold is_classified, class_message, Web.send_chunk. intros Hk.
  rewrite chunk_message_process_chunk.
  destruct (classify_chunk chunk_dict) as [k|] eqn:Hcl; [| discriminate].
  rewrite (ChunkFacts.process_chunk_class (VStr "") chunk_dict k Hcl).
  destruct k as [|t|]; cbn [class_step truthy]; try reflexivity.
  assert (truthy (VStr t) = true) as Ht.
  { unfold classify_chunk in Hcl.
    destruct (dict_get chunk_dict "result") as [|b|z|s|l|result];
      try (destruct (truthy _); discriminate).
    destruct (truthy (dict_get result "lastChunk")); [| discriminate].
    destruct (dict_get result "artifact") as [|b|z|s|l|artifact];
      try (destruct (truthy _); discriminate).
    destruct (dict_get_default artifact "parts" (VList [])) as [| | | |parts|];
      try discriminate.
    destruct (find_text parts) as [[t'|]|] eqn:Hfind; try discriminate.
    injection Hcl as <-. now apply (ChunkFacts.find_text_nonempty parts). }
  cbn [truthy] in Ht. rewrite Ht. reflexivity.
Qed.

Lemma for_each_send_chunk (render : value -> string) (chunks : list dict) :
  forallb is_classified chunks = true ->
  for_each chunks (Web.send_chunk (fun v => inr (render v)))
  = (flat_map (class_message render) chunks, inr tt).
Proof.
  induction chunks as [|c chunks IH]; [reflexivity |].
  cbn [forallb]. intros [Hc H]%andb_true_iff.
  cbn [for_each flat_map]. rewrite (send_chunk_class render c Hc), (IH H). reflexivity.
Qed.

(** The extraction raises [Exception]s only. *)
Lemma py_get_default_Exception (v : value) (k : string) (d : value) (e : exn) :
  py_get_default v k d = inl e -> is_Exception e = true.
Proof. destruct v; cbn; try discriminate; now intros [= <-]. Qed.

Lemma py_iter_Exception (v : value) (e : exn) :
  py_iter v = inl e -> is_Exception e = true.
Proof. destruct v; cbn; try discriminate; now intros [= <-]. Qed.

Lemma py_getitem_Exception (v : value) (k : string) (e : exn) :
  py_getitem v k = inl e -> is_Exception e = true.
Proof.
  destruct v as [| | | |l|d]; cbn; try (now intros [= <-]).
  destruct (lookup d k); [discriminate | now intros [= <-]].
Qed.

Lemma scan_parts_Exception (content : value) (parts : list value) (e : exn) :
  DirectorAgent.scan_parts content parts = inl e -> is_Exception e = true.
Proof.
  induction parts as [|p parts IH]; [discriminate |].
  cbn [DirectorAgent.scan_parts bind Monad_result]. unfold py_get.
  destruct (py_get_default p "kind" VNone) as [e1 | kind] eqn:Hk.
  { intros [= <-]. now apply (py_get_default_Exception p "kind" VNone). }
  destruct (eq_str kind "text"); cbn [bind ret Monad_result].
  - destruct (py_get_default p "text" VNone) as [e1 | text] eqn:Ht.
    { intros [= <-]. now apply (py_get_default_Exception p "text" VNone). }
    destruct (truthy text); [apply py_getitem_Exception | exact IH].
  - exact IH.
Qed.

Lemma process_chunk_Exception (content : value) (chunk_dict : dict) (e : exn) :
  DirectorAgent.process_chunk content chunk_dict = inl e -> is_Exception e = true.
Proof.
  unfold DirectorAgent.process_chunk. cbn [bind ret Monad_result]. unfold py_get.
  destruct (truthy (dict_get chunk_dict "result")); [| discriminate].
  destruct (py_get_default (dict_get chunk_dict "result") "lastChunk" VNone)
    as [e1 | lc] eqn:Hl.
  { intros [= <-]. now apply (py_get_default_Exception _ _ _ _ Hl). }
  destruct (truthy lc); [| discriminate].
  destruct (py_get_default (dict_get chunk_dict "result") "artifact" VNone)
    as [e1 | artifact] eqn:Ha.
  { intros [= <-]. now apply (py_get_default_Exception _ _ _ _ Ha). }
  destruct (truthy artifact); [| discriminate].
  destruct (py_get_default artifact "parts" (VList [])) as [e1 | parts] eqn:Hp.
  { intros [= <-]. now apply (py_get_default_Exception _ _ _ _ Hp). }
  destruct (py_iter parts) as [e1 | its] eqn:Hi.
  { intros [= <-]. now apply (py_iter_Exception _ _ Hi). }
  destruct (DirectorAgent.scan_parts content its) as [e1 | c] eqn:Hs; [| discriminate].
  intros [= <-]. now apply (scan_parts_Exception _ _ _ Hs).
Qed.

Lemma chunk_message_Exception (chunk_dict : dict) (e : exn) :
  Web.chunk_message chunk_dict = inl e -> is_Exception e = true.
Proof.
  rewrite chunk_message_process_chunk.
  destruct (DirectorAgent.process_chunk (VStr "") chunk_dict) as [e1 | c] eqn:Hp;
    [| discriminate].
  intros [= <-]. now apply (process_chunk_Exception _ _ _ Hp).
Qed.

End WebFacts.

(** X20. The web front end extracts what the director extracts first. For every
    chunk, of the payload type or not, the web loop raises when the loop of
    the director raises on that chunk as its first chunk, and otherwise
    sends the content the director extracts from it, or nothing when that
    content is empty (the chunk is not a last chunk). *)
Theorem web_sends_director_content (chunk_dict : dict) :
  Web.chunk_message chunk_dict
  = match DirectorAgent.process_chunk (VStr "") chunk_dict with
    | inl e => inl e
    | inr content => inr (if truthy content then Some content else None)
    end.
Proof. apply WebFacts.chunk_message_process_chunk. Qed.

(** X21. One message for each last chunk. For chunks of the payload type,
    a template that renders and a websocket that takes every message, the
    web loop sends, in order, one message for each last chunk: its first
    text, or the serialization of the chunk when it has none, whatever was
    sent before; and no message for the other chunks. When the transport
    raises an [Exception] at the end, the error fragment is the last message
    and the relay returns; when it raises what is no [Exception] (a
    cancellation), no fragment is sent and the relay is left by it. *)
Theorem web_relays_each_last_chunk (render : value -> string) (chunks : list dict)
    (fin : stream_end) :
  forallb is_classified chunks = true ->
  Web.relay (fun v => inr (render v)) (SendStreams chunks fin)
  = match fin with
    | EndOfStream => (flat_map (class_message render) chunks, inr tt)
    | StreamRaises e =>
        if is_Exception e
        then ((flat_map (class_message render) chunks ++ [Web.error_html e])%list, inr tt)
        else (flat_map (class_message render) chunks, inl e)
    end.
Proof.
  intros Hall. unfold Web.relay.
  cbn [bind Monad_traced]. rewrite (WebFacts.for_each_send_chunk render chunks Hall).
  destruct fin as [|e]; cbn -[is_Exception]; rewrite ?app_nil_r; [reflexivity |].
  destruct (is_Exception e); reflexivity.
Qed.

(** Two last chunks: a text, then a chunk without text, which is serialized
    although a text was sent before; then the transport is cancelled. *)
Lemma web_relays_each_last_chunk_witness :
  Web.relay (fun v => inr (py_str v))
    (SendStreams [ [("result", VDict (result_with [text_part "earlier"]))];
                   [("result", VDict [("lastChunk", VBool false)])];
                   [("result", VDict [("lastChunk", VBool true)])] ]
                 (StreamRaises (PyExn "CancelledError" "")))
  = ([ "earlier"; "{'result': {'lastChunk': True}}" ],
     inl (PyExn "CancelledError" "")).
Proof.
  apply (web_relays_each_last_chunk py_str
           [ [("result", VDict (result_with [text_part "earlier"]))];
             [("result", VDict [("lastChunk", VBool false)])];
             [("result", VDict [("lastChunk", VBool true)])] ]
           (StreamRaises (PyExn "CancelledError" ""))).
  reflexivity.
Defined.

(** X22. A chunk that raises ends the relay. When the loop raises on a chunk,
    what was sent for the chunks before it stays sent, the error fragment
    with the text of the exception is sent, and the chunks after it are not
    read. *)
Theorem web_error_ends_relay (render : value -> string) (pre post : list dict)
    (bad : dict) (e : exn) (fin : stream_end) :
  forallb is_classified pre = true ->
  Web.chunk_message bad = inl e ->
  Web.relay (fun v => inr (render v)) (SendStreams (pre ++ bad :: post) fin)
  = ((flat_map (class_message render) pre ++ [Web.error_html e])%list, inr tt).
Proof.
  intros Hpre Hbad. unfold Web.relay.
  assert (forall (xs ys : list dict) (body : dict -> traced string unit),
             for_each (xs ++ ys) body = (for_each xs body ;; for_each ys body)) as Happ.
  { intros xs ys body. induction xs as [|x xs IH]; cbn [app for_each].
    - cbn. now destruct (for_each ys body) as [t [err | []]].
    - rewrite IH. cbn. destruct (body x) as [t1 [err | u]]; [reflexivity |].
      destruct (for_each xs body) as [t2 [err | u2]]; [reflexivity |].
      destruct (for_each ys body) as [t3 r3]. now rewrite app_assoc. }
  rewrite Happ, (WebFacts.for_each_send_chunk render pre Hpre).
  cbn [for_each]. unfold Web.send_chunk at 1. rewrite Hbad.
  cbn -[is_Exception]. rewrite (WebFacts.chunk_message_Exception bad e Hbad).
  now rewrite app_nil_r.
Qed.

Lemma web_error_ends_relay_witness :
  Web.relay (fun v => inr (py_str v))
    (SendStreams [ [("result", VDict (result_with [text_part "first"]))];
                   [("result", VStr "oops")];
                   [("result", VDict (result_with [text_part "never sent"]))] ]
                 EndOfStream)
  = ([ "first";
       Web.error_html (PyExn "AttributeError" "'str' object has no attribute 'get'") ],
     inr tt).
Proof.
  apply (web_error_ends_relay py_str
           [ [("result", VDict (result_with [text_part "first"]))] ]
           [ [("result", VDict (result_with [text_part "never sent"]))] ]
           [("result", VStr "oops")]
           (PyExn "AttributeError" "'str' object has no attribute 'get'")
           EndOfStream);
    reflexivity.
Defined.
